(** * mindboggle/utils/ants.py: wrappers around the ANTs command line tools

    A shallow embedding of the five functions of [mindboggle.utils.ants]
    ([ImageMath], [ANTS], [WarpImageMultiTransform],
    [PropagateLabelsThroughMask], [fill_volume_with_surface_labels]) and the
    properties of their command construction, default paths and
    post-condition checks.

    The functions are glue code: they compute paths, hand a command to the
    [execute] helper and look at the file system afterwards.  The embedding
    keeps that shape: every function is a computation over an explicit
    world, which can return, raise a Python exception or leave through
    [sys.exit], and which records every call it makes to a helper that
    lives outside this file. *)

From Stdlib Require Import List String Ascii ZArith Bool Lia.
From Stdlib Require Import DecimalString.
Import ListNotations.

Local Open Scope string_scope.
Local Open Scope Z_scope.

(** ** Python strings *)

Module PyStr.

(** [bool(s)] for a [str]: the empty string is false. *)
Definition truthy (s : string) : bool :=
  match s with
  | EmptyString => false
  | String _ _ => true
  end.

(** [s.startswith(c)] and [s.endswith(c)] for a one-character [c]. *)
Definition startswith (c : ascii) (s : string) : bool :=
  match s with
  | EmptyString => false
  | String a _ => Ascii.eqb a c
  end.

Fixpoint endswith (c : ascii) (s : string) : bool :=
  match s with
  | EmptyString => false
  | String a EmptyString => Ascii.eqb a c
  | String _ r => endswith c r
  end.

(** [s.rfind(c)]: index of the last occurrence of [c], [-1] if there is
    none.  [rfind_from] walks the string with the current index and the
    last hit so far. *)
Fixpoint rfind_from (c : ascii) (s : string) (i last : Z) : Z :=
  match s with
  | EmptyString => last
  | String a r => rfind_from c r (i + 1) (if Ascii.eqb a c then i else last)
  end.

Definition rfind (c : ascii) (s : string) : Z := rfind_from c s 0 (-1).

(** [s[i:]] for [0 <= i]. *)
Fixpoint slice_from (i : nat) (s : string) : string :=
  match i, s with
  | O, _ => s
  | S _, EmptyString => EmptyString
  | S j, String _ r => slice_from j r
  end.

(** [s.split(c)] for a one-character separator [c]: every occurrence of
    [c] cuts, so the result always has at least one field. *)
Fixpoint split (c : ascii) (s : string) : list string :=
  match s with
  | EmptyString => [EmptyString]
  | String a r =>
      if Ascii.eqb a c then EmptyString :: split c r
      else match split c r with
           | [] => [String a EmptyString]
           | f :: fs => String a f :: fs
           end
  end.

(** [str(n)] for an [int]. *)
Definition of_int (n : Z) : string := NilZero.string_of_int (Z.to_int n).

End PyStr.

(** ** Python values that are not plain strings *)

(** The exceptions the module can meet. *)
Inductive exn : Type :=
| IOError (msg : string)
| TypeError (msg : string)
| IndexError (msg : string)
| OtherError (msg : string).

(** How a call ends: [return v], [raise e], or [sys.exit(msg)], which
    stops the interpreter. *)
Inductive outcome (A : Type) : Type :=
| Return (v : A)
| Raise (e : exn)
| SysExit (msg : string).
Arguments Return {A} v.
Arguments Raise {A} e.
Arguments SysExit {A} msg.

(** A command handed to [execute]: the source passes a list of words
    almost everywhere, and a formatted line in one place. *)
Inductive Cmd : Type :=
| cmd_list (argv : list string)
| cmd_str (line : string).

(** [surface_files] is a string or a list of strings. *)
Inductive SurfaceFiles : Type :=
| one_file (f : string)
| file_list (fs : list string).

(** [bool(mask_index)] for [None] or an [int]. *)
Definition mask_index_truthy (mask_index : option Z) : bool :=
  match mask_index with
  | None => false
  | Some n => negb (n =? 0)
  end.

(** ** The world outside the module

    [execute] (mindboggle.utils.utils), [transform_to_volume]
    (mindboggle.utils.io_vtk) and [overwrite_volume_labels]
    (mindboggle.labels.relabel) are imported by the module and are not part
    of it; so are the file system and the working directory behind [os].
    They are the parameters of the development.  A helper may change the
    world and may itself end in any of the three ways; looking at the
    working directory or at a path changes nothing. *)
Class Platform : Type := {
  World : Type;
  cwd : World -> string;
  file_exists : string -> World -> bool;
  run_execute : Cmd -> option string -> World -> outcome unit * World;
  run_transform_to_volume :
    string -> string -> World -> outcome string * World;
  run_overwrite_volume_labels :
    string -> string -> string -> list Z -> World -> outcome string * World
}.

(** A call that leaves the module, with its arguments as written at the
    call site ([execute(cmd)] leaves the second argument out). *)
Inductive Call : Type :=
| call_execute (cmd : Cmd) (type : option string)
| call_transform_to_volume (input_vtk volume_file : string)
| call_overwrite_volume_labels
    (source target output_file : string) (ignore_labels : list Z).

(** One entry of the call record: the call and whether it returned. *)
Record Event : Type := mkEvent { ev_call : Call; ev_returned : bool }.

Definition is_return {A : Type} (o : outcome A) : bool :=
  match o with
  | Return _ => true
  | _ => false
  end.

(** ** Computations *)

Section Computations.

Context {P : Platform}.

(** What running a computation from a world gives: how it ended, the
    world it left, and the calls it made, oldest first. *)
Record Run (A : Type) : Type := mkRun {
  result : outcome A;
  final : World;
  calls : list Event
}.
Arguments mkRun {A} _ _ _.
Arguments result {A} _.
Arguments final {A} _.
Arguments calls {A} _.

Definition M (A : Type) : Type := World -> Run A.

Definition ret {A : Type} (v : A) : M A := fun w => mkRun (Return v) w [].

Definition raise {A : Type} (e : exn) : M A := fun w => mkRun (Raise e) w [].

(** [sys.exit(msg)] *)
Definition sys_exit {A : Type} (msg : string) : M A :=
  fun w => mkRun (SysExit msg) w [].

Definition bind {A B : Type} (m : M A) (k : A -> M B) : M B :=
  fun w =>
    let r := m w in
    match result r with
    | Return v =>
        let r' := k v (final r) in
        mkRun (result r') (final r') (calls r ++ calls r')
    | Raise e => mkRun (Raise e) (final r) (calls r)
    | SysExit msg => mkRun (SysExit msg) (final r) (calls r)
    end.

(** A run that starts with a returned call [ev] and goes on as [r]. *)
Definition after {A : Type} (ev : Event) (r : Run A) : Run A :=
  mkRun (result r) (final r) (ev :: calls r).

(** A call to an outside helper: run it and record it. *)
Definition external {A : Type} (c : Call)
    (f : World -> outcome A * World) : M A :=
  fun w =>
    let (o, w') := f w in
    mkRun o w' [mkEvent c (is_return o)].

(** The Python statement [if not c: body], for a body that only raises. *)
Definition unless (c : bool) (body : M unit) : M unit :=
  if c then ret tt else body.

End Computations.

Arguments mkRun {P A} _ _ _.
Arguments result {P A} _.
Arguments final {P A} _.
Arguments calls {P A} _.

Declare Scope py_scope.
Delimit Scope py_scope with py.
Notation "x <- m ;; k" := (bind m (fun x => k))
  (at level 61, m at next level, right associativity) : py_scope.
Notation "m ;;; k" := (bind m (fun _ => k))
  (at level 61, right associativity) : py_scope.
Local Open Scope py_scope.

(** ** The [os] and [os.path] functions the module uses *)

Module os.

(** [posixpath.join(a, b)] *)
Definition path_join (a b : string) : string :=
  if PyStr.startswith "/" b then b
  else if negb (PyStr.truthy a) || PyStr.endswith "/" a then a ++ b
  else a ++ "/" ++ b.

(** The message of the [TypeError] for [given] unexpected arguments. *)
Definition no_arguments (given : nat) : string :=
  "getcwd() takes no arguments (" ++ PyStr.of_int (Z.of_nat given)
  ++ " given)".

(** [posixpath.basename(p)]: [i = p.rfind('/') + 1; return p[i:]] *)
Definition path_basename (p : string) : string :=
  let i := PyStr.rfind "/" p + 1 in
  PyStr.slice_from (Z.to_nat i) p.

Section WithPlatform.
Context {P : Platform}.

(** [os.getcwd] called with the positional arguments [args]: the
    function takes none and raises [TypeError] when given any. *)
Definition getcwd (args : list string) : M string :=
  match args with
  | [] => fun w => mkRun (Return (cwd w)) w []
  | _ :: _ => raise (TypeError (no_arguments (List.length args)))
  end.

(** [os.path.exists(p)] *)
Definition path_exists (p : string) : M bool :=
  fun w => mkRun (Return (file_exists p w)) w [].

End WithPlatform.

End os.

(** [l[i]] on a Python list *)
Definition py_index {P : Platform} {A : Type} (l : list A) (i : nat) : M A :=
  match nth_error l i with
  | Some v => ret v
  | None => raise (IndexError "list index out of range")
  end.

(** ** The helpers imported from the rest of mindboggle *)

Section Helpers.
Context {P : Platform}.

(** [execute(cmd, type)] from mindboggle.utils.utils *)
Definition execute (cmd : Cmd) (type : option string) : M unit :=
  external (call_execute cmd type) (run_execute cmd type).

(** [transform_to_volume(input_vtk, volume_file)] from
    mindboggle.utils.io_vtk; it returns the name of the volume it wrote. *)
Definition transform_to_volume (input_vtk volume_file : string) : M string :=
  external (call_transform_to_volume input_vtk volume_file)
           (run_transform_to_volume input_vtk volume_file).

(** [overwrite_volume_labels(source, target, output_file, ignore_labels)]
    from mindboggle.labels.relabel. *)
Definition overwrite_volume_labels
    (source target output_file : string) (ignore_labels : list Z)
    : M string :=
  external
    (call_overwrite_volume_labels source target output_file ignore_labels)
    (run_overwrite_volume_labels source target output_file ignore_labels).

End Helpers.

(** ** The module *)

Section Ants.
Context {P : Platform}.

(** [raise(IOError(path + " not found"))] unless [path] exists. *)
Definition not_found (path : string) : exn := IOError (path ++ " not found").

Definition ImageMath (volume1 volume2 operator output_file : string)
    : M string :=
  output_file <-
    (if negb (PyStr.truthy output_file)
     then here <- os.getcwd [] ;;
          ret (os.path_join here "ImageMath.nii.gz")
     else ret output_file) ;;
  let cmd :=
    cmd_list ["ImageMath"; "3"; output_file; operator; volume1; volume2] in
  execute cmd (Some "os") ;;;
  found <- os.path_exists output_file ;;
  unless found (raise (not_found output_file)) ;;;
  ret output_file.

Definition ANTS (source target iterations output_stem : string)
    : M (string * string * string * string) :=
  output_stem <-
    (if negb (PyStr.truthy output_stem)
     then src <- py_index (PyStr.split "." (os.path_basename source)) 0 ;;
          tgt <- py_index (PyStr.split "." (os.path_basename target)) 0 ;;
          here <- os.getcwd [] ;;
          ret (os.path_join here (src ++ "_to_" ++ tgt))
     else ret output_stem) ;;
  let cmd :=
    cmd_list ["ANTS"; "3"; "-m CC[" ++ target ++ "," ++ source ++ ",1,2]";
              "-r Gauss[2,0]"; "-t SyN[0.5] -i"; iterations;
              "-o"; output_stem; "--use-Histogram-Matching";
              "--number-of-affine-iterations 10000x10000x10000x10000x10000"]
  in
  execute cmd (Some "os") ;;;
  let affine_transform := output_stem ++ "Affine.txt" in
  let nonlinear_transform := output_stem ++ "Warp.nii.gz" in
  let nonlinear_inverse_transform := output_stem ++ "InverseWarp.nii.gz" in
  found <- os.path_exists affine_transform ;;
  unless found (raise (not_found affine_transform)) ;;;
  found <- os.path_exists nonlinear_transform ;;
  unless found (raise (not_found nonlinear_transform)) ;;;
  found <- os.path_exists nonlinear_inverse_transform ;;
  unless found (raise (not_found nonlinear_inverse_transform)) ;;;
  ret (affine_transform, nonlinear_transform,
       nonlinear_inverse_transform, output_stem).

Definition WarpImageMultiTransform
    (source target output interp xfm_stem
     affine_transform nonlinear_transform : string)
    (inverse affine_only : bool) : M string :=
  transforms <-
    (if PyStr.truthy xfm_stem
     then ret (xfm_stem ++ "Affine.txt",
               if inverse then xfm_stem ++ "InverseWarp.nii.gz"
               else xfm_stem ++ "Warp.nii.gz")
     else if negb (PyStr.truthy affine_transform)
             && negb (PyStr.truthy nonlinear_transform)
     then sys_exit ("Provide either xfm_stem or affine_transform and "
                    ++ "nonlinear_transform.")
     else ret (affine_transform, nonlinear_transform)) ;;
  let affine_transform := fst transforms in
  let nonlinear_transform := snd transforms in
  output <-
    (if negb (PyStr.truthy output)
     then here <- os.getcwd [] ;;
          ret (os.path_join here "WarpImageMultiTransform.nii.gz")
     else ret output) ;;
  found <- os.path_exists nonlinear_transform ;;
  let affine_only := if negb found then true else affine_only in
  let cmd :=
    if affine_only then
      if inverse then
        cmd_list ["WarpImageMultiTransform"; "3"; source; output; "-R";
                  target; interp; "-i"; affine_transform]
      else
        cmd_list ["WarpImageMultiTransform"; "3"; source; output; "-R";
                  target; interp; affine_transform]
    else
      if inverse then
        cmd_list ["WarpImageMultiTransform"; "3"; source; output; "-R";
                  target; interp; "-i"; affine_transform;
                  nonlinear_transform]
      else
        cmd_list ["WarpImageMultiTransform"; "3"; source; output; "-R";
                  target; interp; nonlinear_transform; affine_transform]
  in
  execute cmd (Some "os") ;;;
  found <- os.path_exists output ;;
  unless found (raise (not_found output)) ;;;
  ret output.

(** [{n}.format(mask_index)] *)
Definition format_mask_index (mask_index : option Z) : string :=
  match mask_index with
  | Some n => PyStr.of_int n
  | None => "None"
  end.

Definition PropagateLabelsThroughMask
    (mask_volume label_volume : string) (mask_index : option Z)
    (output_file : string) (binarize : bool) : M string :=
  output_file <-
    (if negb (PyStr.truthy output_file)
     then here <- os.getcwd [] ;;
          ret (os.path_join here "PropagateLabelsThroughMask.nii.gz")
     else ret output_file) ;;
  (* Binarize image volume: *)
  mask_volume <-
    (if binarize
     then here <- os.getcwd [] ;;
          let temp_file :=
            os.path_join here "PropagateLabelsThroughMask.nii.gz" in
          let cmd :=
            cmd_list ["ThresholdImage"; "3"; mask_volume; temp_file;
                      "0 1 0 1"] in
          execute cmd (Some "os") ;;;
          ret temp_file
     else ret mask_volume) ;;
  (* Mask with just voxels having mask_index value: *)
  mask <-
    (if mask_index_truthy mask_index
     then mask <- os.getcwd ["temp.nii.gz"] ;;
          let cmd :=
            cmd_str ("ThresholdImage 3 " ++ mask_volume ++ " " ++ mask
                     ++ " " ++ format_mask_index mask_index
                     ++ " " ++ format_mask_index mask_index ++ " 1 0") in
          execute cmd None ;;;
          ret mask
     else ret mask_volume) ;;
  (* Propagate labels: *)
  let cmd :=
    cmd_list ["ImageMath"; "3"; output_file; "PropagateLabelsThroughMask";
              mask; label_volume] in
  execute cmd (Some "os") ;;;
  found <- os.path_exists output_file ;;
  unless found (raise (not_found output_file)) ;;;
  ret output_file.

Definition fill_volume_with_surface_labels
    (volume_mask : string) (surface_files : SurfaceFiles)
    (mask_index : option Z) (output_file : string) (binarize : bool)
    : M string :=
  let surface_files :=
    match surface_files with
    | one_file f => [f]
    | file_list fs => fs
    end in
  first <- py_index surface_files 0 ;;
  surface_in_volume <- transform_to_volume first volume_mask ;;
  (* Do the same for additional vtk surfaces: *)
  surface_in_volume <-
    (if Nat.eqb (List.length surface_files) 2
     then here <- os.getcwd [] ;;
          let surfaces_in_volume := os.path_join here "surfaces.nii.gz" in
          second <- py_index surface_files 1 ;;
          surface_in_volume2 <- transform_to_volume second volume_mask ;;
          overwrite_volume_labels surface_in_volume surface_in_volume2
                                  surfaces_in_volume [0] ;;;
          ret surfaces_in_volume
     else ret surface_in_volume) ;;
  output_file <-
    PropagateLabelsThroughMask volume_mask surface_in_volume mask_index
                               output_file binarize ;;
  found <- os.path_exists output_file ;;
  unless found (raise (not_found output_file)) ;;;
  ret output_file.

End Ants.

(** ** The vocabulary of the specification

    The specification speaks of default paths, of the expected outputs of
    a command and of what a function does once its command has run.  The
    definitions below give these words a meaning on runs; they follow the
    specification, not the code, and the theorems relate the two. *)

Section Specification.
Context {P : Platform}.

(** The path a function works with when the caller may leave it empty:
    the given one, or [name] in the working directory. *)
Definition default_path (given name : string) (w : World) : string :=
  if PyStr.truthy given then given else os.path_join (cwd w) name.

(** [s] up to its first [c] (all of [s] when it has none). *)
Fixpoint up_to_first (c : ascii) (s : string) : string :=
  match s with
  | EmptyString => EmptyString
  | String a r => if Ascii.eqb a c then EmptyString
                  else String a (up_to_first c r)
  end.

(** The stem [ANTS] derives from its two volumes. *)
Definition derived_stem (source target : string) (w : World) : string :=
  os.path_join (cwd w)
    (up_to_first "." (os.path_basename source) ++ "_to_"
     ++ up_to_first "." (os.path_basename target)).

(** Checking that each expected output exists: the first one that does
    not gives an [IOError] with the path followed by [" not found"];
    when all exist the value [v] is returned. *)
Definition check_outputs {A : Type} (expected : list string) (v : A)
    (w : World) : outcome A :=
  match find (fun p => negb (file_exists p w)) expected with
  | Some p => Raise (IOError (p ++ " not found"))
  | None => Return v
  end.

(** The calls of a run, without their outcome. *)
Definition made {A : Type} (r : Run A) : list Call := map ev_call (calls r).

(** Every helper called during the run returned. *)
Definition all_returned {A : Type} (r : Run A) : bool :=
  forallb ev_returned (calls r).

(** The last thing the run called was [execute] on a command line for
    [tool], and that call returned. *)
Definition completed {A : Type} (tool : string) (r : Run A) : bool :=
  match hd_error (rev (calls r)) with
  | Some (mkEvent (call_execute (cmd_list (t :: _)) _) true) =>
      String.eqb t tool
  | _ => false
  end.

(** A run that ends the only way the specification allows: it returns,
    or it raises an [IOError] naming a file that does not exist. *)
Inductive returns_or_misses_output {A : Type} (r : Run A) : Prop :=
| ends_returning (v : A) :
    result r = Return v -> returns_or_misses_output r
| ends_missing (p : string) :
    result r = Raise (IOError (p ++ " not found")) ->
    file_exists p (final r) = false ->
    returns_or_misses_output r.

(** The transforms [WarpImageMultiTransform] works with: those built
    from [xfm_stem] when it is given, the caller's otherwise. *)
Definition resolved_affine (xfm_stem affine_transform : string) : string :=
  if PyStr.truthy xfm_stem then xfm_stem ++ "Affine.txt"
  else affine_transform.

Definition resolved_nonlinear
    (xfm_stem nonlinear_transform : string) (inverse : bool) : string :=
  if PyStr.truthy xfm_stem
  then xfm_stem ++ (if inverse then "InverseWarp.nii.gz" else "Warp.nii.gz")
  else nonlinear_transform.

(** Some transform was named by the caller. *)
Definition transforms_given
    (xfm_stem affine_transform nonlinear_transform : string) : bool :=
  PyStr.truthy xfm_stem || PyStr.truthy affine_transform
  || PyStr.truthy nonlinear_transform.

(** The command line that applies the affine transform alone. *)
Definition affine_only_command
    (source target output interp affine : string) (inverse : bool) : Cmd :=
  cmd_list (["WarpImageMultiTransform"; "3"; source; output; "-R"; target;
             interp] ++ (if inverse then ["-i"] else []) ++ [affine]).

(** The command line that applies both transforms. *)
Definition both_transforms_command
    (source target output interp affine nonlinear : string)
    (inverse : bool) : Cmd :=
  cmd_list (["WarpImageMultiTransform"; "3"; source; output; "-R"; target;
             interp]
            ++ (if inverse then ["-i"; affine; nonlinear]
                else [nonlinear; affine])).

(** The two commands of [PropagateLabelsThroughMask]. *)
Definition binarize_command (mask_volume temp_file : string) : Cmd :=
  cmd_list ["ThresholdImage"; "3"; mask_volume; temp_file; "0 1 0 1"].

Definition propagate_command
    (output_file mask label_volume : string) : Cmd :=
  cmd_list ["ImageMath"; "3"; output_file; "PropagateLabelsThroughMask";
            mask; label_volume].

(** [execute(cmd, 'os')] as a call. *)
Definition os_call (cmd : Cmd) : Call := call_execute cmd (Some "os").

(** Run a command, then check its one output: the pattern the
    specification describes for every wrapper. *)
Definition run_and_check (cmd : Cmd) (out : string) : M string :=
  execute cmd (Some "os") ;;;
  found <- os.path_exists out ;;
  unless found (raise (not_found out)) ;;;
  ret out.

(** The message of the [sys.exit] in [WarpImageMultiTransform]. *)
Definition no_transform_message : string :=
  "Provide either xfm_stem or affine_transform and nonlinear_transform.".

(** The surface files as a list. *)
Definition surfaces (surface_files : SurfaceFiles) : list string :=
  match surface_files with
  | one_file f => [f]
  | file_list fs => fs
  end.

End Specification.

(** ** Characters in file names *)

(** [c in s] for a one-character [c]. *)
Fixpoint has_char (c : ascii) (s : string) : bool :=
  match s with
  | EmptyString => false
  | String a r => Ascii.eqb a c || has_char c r
  end.

(** ** More vocabulary *)

Section MoreVocabulary.
Context {P : Platform}.

(** The command line of [ANTS] for a given stem. *)
Definition ANTS_command (source target iterations stem : string) : Cmd :=
  cmd_list ["ANTS"; "3"; "-m CC[" ++ target ++ "," ++ source ++ ",1,2]";
            "-r Gauss[2,0]"; "-t SyN[0.5] -i"; iterations; "-o"; stem;
            "--use-Histogram-Matching";
            "--number-of-affine-iterations 10000x10000x10000x10000x10000"].

(** The stem [ANTS] works with. *)
Definition ANTS_stem (source target output_stem : string) (w : World)
    : string :=
  if PyStr.truthy output_stem then output_stem
  else derived_stem source target w.

(** How a helper that did not return ended, as the outcome of its
    caller. *)
Definition failure_of {A B : Type} (o : outcome A) : option (outcome B) :=
  match o with
  | Return _ => None
  | Raise e => Some (Raise e)
  | SysExit msg => Some (SysExit msg)
  end.

(** Every call of the run but possibly the last one returned. *)
Definition only_last_may_fail {A : Type} (r : Run A) : bool :=
  forallb ev_returned (removelast (calls r)).

(** A run that returns, or raises an [IOError] naming one of the
    [expected] output files, which does not exist in the world the run
    leaves. *)
Inductive returns_or_misses_one_of {A : Type} (expected : list string)
    (r : Run A) : Prop :=
| run_returns (v : A) :
    result r = Return v -> returns_or_misses_one_of expected r
| run_misses (p : string) :
    In p expected ->
    result r = Raise (IOError (p ++ " not found")) ->
    file_exists p (final r) = false ->
    returns_or_misses_one_of expected r.

(** The first part of [fill_volume_with_surface_labels]: the surfaces
    brought into the volume, merged when there are two; the value is the
    volume handed to the propagation. *)
Definition surfaces_to_volume (volume_mask : string)
    (surface_files : list string) : M string :=
  first <- py_index surface_files 0 ;;
  surface_in_volume <- transform_to_volume first volume_mask ;;
  (if Nat.eqb (List.length surface_files) 2
   then here <- os.getcwd [] ;;
        let surfaces_in_volume := os.path_join here "surfaces.nii.gz" in
        second <- py_index surface_files 1 ;;
        surface_in_volume2 <- transform_to_volume second volume_mask ;;
        overwrite_volume_labels surface_in_volume surface_in_volume2
                                surfaces_in_volume [0] ;;;
        ret surfaces_in_volume
   else ret surface_in_volume).

End MoreVocabulary.

(** ** A small concrete platform

    A world with a working directory and a set of existing files, and
    stand-ins for the tools: when the toolkit is installed, each tool
    creates the files it is asked to write; when it is not, [execute]
    still returns and nothing is created. *)

Module Demo.

Record world : Type := mkWorld {
  workdir : string;
  files : list string;
  installed : bool
}.

Definition touch (paths : list string) (w : world) : world :=
  mkWorld (workdir w) (paths ++ files w) (installed w).

Definition exists_in (p : string) (w : world) : bool :=
  existsb (String.eqb p) (files w).

(** The word after [-o] in an ANTS command. *)
Fixpoint stem_of (argv : list string) : string :=
  match argv with
  | flag :: rest =>
      if String.eqb flag "-o" then hd EmptyString rest else stem_of rest
  | [] => EmptyString
  end.

Definition outputs_of (cmd : Cmd) : list string :=
  match cmd with
  | cmd_list ("ImageMath" :: _ :: out :: _) => [out]
  | cmd_list ("ThresholdImage" :: _ :: _ :: out :: _) => [out]
  | cmd_list ("WarpImageMultiTransform" :: _ :: _ :: out :: _) => [out]
  | cmd_list ("ANTS" :: argv) =>
      let stem := stem_of argv in
      [stem ++ "Affine.txt"; stem ++ "Warp.nii.gz";
       stem ++ "InverseWarp.nii.gz"]
  | _ => []
  end.

Definition run_tool (cmd : Cmd) (_ : option string) (w : world)
    : outcome unit * world :=
  (Return tt, if installed w then touch (outputs_of cmd) w else w).

Definition to_volume (input_vtk _ : string) (w : world)
    : outcome string * world :=
  let out := input_vtk ++ ".nii.gz" in (Return out, touch [out] w).

Definition overwrite (_ _ output_file : string) (_ : list Z) (w : world)
    : outcome string * world :=
  (Return output_file, touch [output_file] w).

Definition platform : Platform := {|
  World := world;
  cwd := workdir;
  file_exists := exists_in;
  run_execute := run_tool;
  run_transform_to_volume := to_volume;
  run_overwrite_volume_labels := overwrite
|}.

(** An empty directory with the toolkit, and one without it. *)
Definition fresh : world := mkWorld "/data" [] true.
Definition bare : world := mkWorld "/data" [] false.

End Demo.

(** * Properties *)

(** ** Running computations step by step *)

Section Laws.
Context {P : Platform}.

Lemma run_eta {A : Type} (r : Run A) :
  mkRun (result r) (final r) (calls r) = r.
Proof. destruct r; reflexivity. Qed.

Lemma bind_ret {A B : Type} (v : A) (k : A -> M B) w :
  bind (ret v) k w = k v w.
Proof. unfold bind, ret; cbn. apply run_eta. Qed.

Lemma bind_raise {A B : Type} e (k : A -> M B) w :
  bind (raise e) k w = raise e w.
Proof. reflexivity. Qed.

Lemma bind_sys_exit {A B : Type} msg (k : A -> M B) w :
  bind (sys_exit msg) k w = sys_exit msg w.
Proof. reflexivity. Qed.

Lemma bind_assoc {A B C : Type} (m : M A) (k : A -> M B) (h : B -> M C) w :
  bind (bind m k) h w = bind m (fun x => bind (k x) h) w.
Proof.
  unfold bind. destruct (m w) as [[v | e | msg] w1 c1]; cbn; try reflexivity.
  destruct (k v w1) as [[v' | e | msg] w2 c2]; cbn; try reflexivity.
  rewrite app_assoc. reflexivity.
Qed.

Lemma bind_getcwd {B : Type} (k : string -> M B) w :
  bind (os.getcwd []) k w = k (cwd w) w.
Proof. unfold bind, os.getcwd; cbn. apply run_eta. Qed.

Lemma bind_getcwd_args {B : Type} a (k : string -> M B) w :
  bind (os.getcwd [a]) k w
  = raise (TypeError "getcwd() takes no arguments (1 given)") w.
Proof. reflexivity. Qed.

Lemma bind_path_exists {B : Type} p (k : bool -> M B) w :
  bind (os.path_exists p) k w = k (file_exists p w) w.
Proof. unfold bind, os.path_exists; cbn. apply run_eta. Qed.

Lemma bind_unless {B : Type} (c : bool) e (k : unit -> M B) w :
  bind (unless c (raise e)) k w = if c then k tt w else raise e w.
Proof. destruct c; [apply bind_ret | reflexivity]. Qed.

Lemma bind_external {A B : Type} c (f : World -> outcome A * World)
    (k : A -> M B) w :
  bind (external c f) k w =
  match f w with
  | (Return v, w') => after (mkEvent c true) (k v w')
  | (Raise e, w') => mkRun (Raise e) w' [mkEvent c false]
  | (SysExit msg, w') => mkRun (SysExit msg) w' [mkEvent c false]
  end.
Proof.
  unfold bind, external. destruct (f w) as [[v | e | msg] w']; reflexivity.
Qed.

Lemma bind_py_index {A B : Type} (l : list A) i (k : A -> M B) w :
  bind (py_index l i) k w =
  match nth_error l i with
  | Some v => k v w
  | None => raise (IndexError "list index out of range") w
  end.
Proof.
  unfold py_index. destruct (nth_error l i); [apply bind_ret | reflexivity].
Qed.

(** A returned value that was already checked need not be checked again. *)
Lemma bind_checked (m : M string) w :
  (forall p, result (m w) = Return p ->
             file_exists p (final (m w)) = true) ->
  bind m (fun o => found <- os.path_exists o ;;
                   unless found (raise (not_found o)) ;;;
                   ret o) w
  = m w.
Proof.
  intros H. unfold bind at 1.
  destruct (m w) as [[p | e | msg] w' cs]; cbn [result final calls] in *;
    try reflexivity.
  rewrite bind_path_exists, bind_unless, (H p eq_refl). cbn.
  rewrite app_nil_r. reflexivity.
Qed.

(** [s.split(c)[0]] is [s] up to its first [c]. *)
Lemma split_first (c : ascii) (s : string) :
  nth_error (PyStr.split c s) 0 = Some (up_to_first c s).
Proof.
  induction s as [| a r IH]; cbn.
  - reflexivity.
  - destruct (Ascii.eqb a c); [reflexivity |].
    destruct (PyStr.split c r) as [| f fs]; [discriminate IH |].
    cbn in IH |- *. congruence.
Qed.

End Laws.

Create Rewrite HintDb py.
#[local] Hint Rewrite
  @bind_assoc @bind_ret @bind_raise @bind_sys_exit @bind_getcwd
  @bind_getcwd_args @bind_path_exists @bind_unless @bind_py_index
  @split_first : py.

Ltac simp :=
  cbn [result final calls fst snd app nth_error is_return map after ret raise
       sys_exit made all_returned forallb andb negb PyStr.truthy
       List.length Nat.eqb surfaces ev_returned ev_call]
    in *.

(** Run the call at the head of the goal and split on how it ended. *)
Ltac call_step :=
  unfold execute, transform_to_volume, overwrite_volume_labels;
  rewrite !bind_external;
  match goal with
  | E : ?f ?w = (_, _) |- context [match ?f ?w with pair _ _ => _ end] =>
      rewrite E
  | |- context [match ?f ?w with pair _ _ => _ end] =>
      let o := fresh "o" in
      let w' := fresh "w" in
      let E := fresh "E" in
      destruct (f w) as [o w'] eqn:E; destruct o
  end; simp.

Ltac py :=
  unfold run_and_check;
  repeat (autorewrite with py; simp; try call_step).

(** ** The string functions on examples *)

Example basename_examples :
  os.path_basename "/in/t1.brain.nii.gz" = "t1.brain.nii.gz"
  /\ os.path_basename "t1.nii.gz" = "t1.nii.gz"
  /\ os.path_basename "/in/" = EmptyString.
Proof. repeat split; reflexivity. Qed.

Example split_examples :
  PyStr.split "." "t1.brain.nii.gz" = ["t1"; "brain"; "nii"; "gz"]
  /\ PyStr.split "." "t1" = ["t1"]
  /\ PyStr.split "." ".hidden" = [EmptyString; "hidden"]
  /\ PyStr.split "." EmptyString = [EmptyString].
Proof. repeat split; reflexivity. Qed.

Example path_join_examples :
  os.path_join "/data" "x.nii.gz" = "/data/x.nii.gz"
  /\ os.path_join "/data/" "x.nii.gz" = "/data/x.nii.gz"
  /\ os.path_join EmptyString "x.nii.gz" = "x.nii.gz"
  /\ os.path_join "/data" "/tmp/x.nii.gz" = "/tmp/x.nii.gz".
Proof. repeat split; reflexivity. Qed.

Example of_int_examples :
  PyStr.of_int 2 = "2" /\ PyStr.of_int 0 = "0" /\ PyStr.of_int (-13) = "-13".
Proof. repeat split; reflexivity. Qed.

(** ** The functions on examples *)

Example ImageMath_demo :
  let r := ImageMath (P := Demo.platform) "t1.nii.gz" "mask.nii.gz" "m"
                     EmptyString Demo.fresh in
  result r = Return "/data/ImageMath.nii.gz"
  /\ map ev_call (calls r) =
     [call_execute (cmd_list ["ImageMath"; "3"; "/data/ImageMath.nii.gz"; "m";
                              "t1.nii.gz"; "mask.nii.gz"]) (Some "os")].
Proof. split; reflexivity. Qed.

Example ANTS_demo :
  result (ANTS (P := Demo.platform) "/in/t1.brain.nii.gz" "/atlas/MNI152.nii.gz"
               "0" EmptyString Demo.fresh)
  = Return ("/data/t1_to_MNI152Affine.txt", "/data/t1_to_MNI152Warp.nii.gz",
            "/data/t1_to_MNI152InverseWarp.nii.gz", "/data/t1_to_MNI152").
Proof. reflexivity. Qed.

Example ANTS_demo_missing :
  result (ANTS (P := Demo.platform) "/in/t1.brain.nii.gz" "/atlas/MNI152.nii.gz"
               "0" "/out/x" Demo.bare)
  = Raise (IOError "/out/xAffine.txt not found").
Proof. reflexivity. Qed.

Example PropagateLabelsThroughMask_demo :
  let r := PropagateLabelsThroughMask (P := Demo.platform) "brain.nii.gz"
             "labels.nii.gz" None EmptyString true Demo.fresh in
  result r = Return "/data/PropagateLabelsThroughMask.nii.gz"
  /\ map ev_call (calls r) =
     [call_execute (cmd_list ["ThresholdImage"; "3"; "brain.nii.gz";
                              "/data/PropagateLabelsThroughMask.nii.gz";
                              "0 1 0 1"]) (Some "os");
      call_execute (cmd_list ["ImageMath"; "3";
                              "/data/PropagateLabelsThroughMask.nii.gz";
                              "PropagateLabelsThroughMask";
                              "/data/PropagateLabelsThroughMask.nii.gz";
                              "labels.nii.gz"]) (Some "os")].
Proof. split; reflexivity. Qed.

Example fill_volume_with_surface_labels_demo :
  let r := fill_volume_with_surface_labels (P := Demo.platform) "brain.nii.gz"
             (file_list ["lh.vtk"; "rh.vtk"]) None EmptyString false
             Demo.fresh in
  result r = Return "/data/PropagateLabelsThroughMask.nii.gz"
  /\ map ev_call (calls r) =
     [call_transform_to_volume "lh.vtk" "brain.nii.gz";
      call_transform_to_volume "rh.vtk" "brain.nii.gz";
      call_overwrite_volume_labels "lh.vtk.nii.gz" "rh.vtk.nii.gz"
        "/data/surfaces.nii.gz" [0];
      call_execute (cmd_list ["ImageMath"; "3";
                              "/data/PropagateLabelsThroughMask.nii.gz";
                              "PropagateLabelsThroughMask";
                              "brain.nii.gz"; "/data/surfaces.nii.gz"])
                   (Some "os")].
Proof. split; reflexivity. Qed.

(** ** ImageMath *)

(** C5: every call to [ImageMath] hands [execute] exactly one command,
    the list [ImageMath 3 output_file operator volume1 volume2] with the
    (possibly defaulted) output path, with nothing added, and the
    execution type ['os']. *)
Theorem ImageMath_command {P : Platform}
    (volume1 volume2 operator output_file : string) (w : World) :
  made (ImageMath volume1 volume2 operator output_file w) =
  [call_execute
     (cmd_list ["ImageMath"; "3";
                default_path output_file "ImageMath.nii.gz" w;
                operator; volume1; volume2])
     (Some "os")].
Proof.
  unfold ImageMath, default_path.
  destruct output_file; simp; py; try reflexivity;
    destruct (file_exists _ _); reflexivity.
Qed.

(** C3: with an empty [output_file], the path [ImageMath] puts in the
    command and returns is ['ImageMath.nii.gz'] joined to the working
    directory; a non-empty [output_file] is used and returned as given. *)
Theorem ImageMath_output_path {P : Platform}
    (volume1 volume2 operator : string) :
  (forall w,
      let r := ImageMath volume1 volume2 operator EmptyString w in
      let out := os.path_join (cwd w) "ImageMath.nii.gz" in
      made r = [call_execute
                  (cmd_list ["ImageMath"; "3"; out; operator;
                             volume1; volume2]) (Some "os")]
      /\ (forall p, result r = Return p -> p = out)
      /\ (completed "ImageMath" r = true ->
          file_exists out (final r) = true -> result r = Return out))
  /\ (forall output_file w,
         output_file <> EmptyString ->
         let r := ImageMath volume1 volume2 operator output_file w in
         made r = [call_execute
                     (cmd_list ["ImageMath"; "3"; output_file; operator;
                                volume1; volume2]) (Some "os")]
         /\ (forall p, result r = Return p -> p = output_file)
         /\ (completed "ImageMath" r = true ->
             file_exists output_file (final r) = true ->
             result r = Return output_file)).
Proof.
  split.
  - intros w r out. subst r out. unfold ImageMath. simp. py.
    all: try (repeat split; [discriminate | intro; discriminate]).
    destruct (file_exists _ w0) eqn:F; simp; repeat split; congruence.
  - intros output_file w Hne r. subst r. unfold ImageMath.
    destruct output_file as [| a s]; [congruence |]. simp. py.
    all: try (repeat split; [discriminate | intro; discriminate]).
    destruct (file_exists _ w0) eqn:F; simp; repeat split; congruence.
Qed.

Lemma ImageMath_output_path_witness :
  let r := ImageMath (P := Demo.platform) "t1.nii.gz" "mask.nii.gz" "m"
                     "/out/product.nii.gz" Demo.fresh in
  ("/out/product.nii.gz" <> EmptyString
   /\ completed "ImageMath" r = true
   /\ file_exists "/out/product.nii.gz" (final r) = true)
  /\ result r = Return "/out/product.nii.gz".
Proof.
  split.
  - split; [discriminate | split; reflexivity].
  - apply (proj2 (ImageMath_output_path (P := Demo.platform)
                    "t1.nii.gz" "mask.nii.gz" "m")
             "/out/product.nii.gz" Demo.fresh);
      [discriminate | reflexivity | reflexivity].
Defined.

(** ** ANTS *)

(** C4: with an empty [output_stem], [ANTS] derives the stem as the
    working directory joined with (basename of [source] up to its first
    dot) + ['_to_'] + (basename of [target] up to its first dot); and every
    call that returns gives [stem+'Affine.txt'], [stem+'Warp.nii.gz'],
    [stem+'InverseWarp.nii.gz'] and the stem, in that order. *)
Theorem ANTS_stem_and_results {P : Platform}
    (source target iterations output_stem : string) (w : World) :
  let stem := if PyStr.truthy output_stem then output_stem
              else derived_stem source target w in
  let values := (stem ++ "Affine.txt", stem ++ "Warp.nii.gz",
                 stem ++ "InverseWarp.nii.gz", stem) in
  let r := ANTS source target iterations output_stem w in
  made r =
    [call_execute
       (cmd_list
          ["ANTS"; "3"; "-m CC[" ++ target ++ "," ++ source ++ ",1,2]";
           "-r Gauss[2,0]"; "-t SyN[0.5] -i"; iterations; "-o"; stem;
           "--use-Histogram-Matching";
           "--number-of-affine-iterations 10000x10000x10000x10000x10000"])
       (Some "os")]
  /\ (forall v, result r = Return v -> v = values)
  /\ (completed "ANTS" r = true ->
      file_exists (stem ++ "Affine.txt") (final r) = true ->
      file_exists (stem ++ "Warp.nii.gz") (final r) = true ->
      file_exists (stem ++ "InverseWarp.nii.gz") (final r) = true ->
      result r = Return values).
Proof.
  intros stem values r. subst stem values r. unfold ANTS, derived_stem.
  destruct output_stem as [| a s]; simp; py.
  all: try (repeat split; [discriminate | intro; discriminate]).
  all: repeat (match goal with
               | |- context [if file_exists ?p ?w then _ else _] =>
                   destruct (file_exists p w) eqn:?
               end; simp; py).
  all: repeat split; congruence.
Qed.

Lemma ANTS_stem_and_results_witness :
  let r := ANTS (P := Demo.platform) "/in/t1.brain.nii.gz"
                "/atlas/MNI152.nii.gz" "0" EmptyString Demo.fresh in
  (completed "ANTS" r = true
   /\ file_exists "/data/t1_to_MNI152Affine.txt" (final r) = true
   /\ file_exists "/data/t1_to_MNI152Warp.nii.gz" (final r) = true
   /\ file_exists "/data/t1_to_MNI152InverseWarp.nii.gz" (final r) = true)
  /\ result r =
     Return ("/data/t1_to_MNI152Affine.txt", "/data/t1_to_MNI152Warp.nii.gz",
             "/data/t1_to_MNI152InverseWarp.nii.gz", "/data/t1_to_MNI152").
Proof.
  split.
  - split; [| split; [| split]]; reflexivity.
  - apply (proj2 (proj2 (ANTS_stem_and_results (P := Demo.platform)
                           "/in/t1.brain.nii.gz" "/atlas/MNI152.nii.gz" "0"
                           EmptyString Demo.fresh))); reflexivity.
Defined.

(** ** Running a command and checking its output *)

Section RunAndCheck.
Context {P : Platform}.
Variables (cmd : Cmd) (out : string) (w : World).

Lemma run_and_check_made : made (run_and_check cmd out w) = [os_call cmd].
Proof.
  unfold run_and_check. py; try reflexivity.
  destruct (file_exists out w0); reflexivity.
Qed.

Lemma run_and_check_returns p :
  result (run_and_check cmd out w) = Return p ->
  p = out /\ file_exists out (final (run_and_check cmd out w)) = true.
Proof.
  unfold run_and_check. py; try discriminate.
  destruct (file_exists out w0) eqn:F; simp; [| discriminate].
  intros [= <-]. split; [reflexivity | exact F].
Qed.

Lemma run_and_check_all_returned :
  all_returned (run_and_check cmd out w) = true ->
  result (run_and_check cmd out w)
  = check_outputs [out] out (final (run_and_check cmd out w)).
Proof.
  unfold run_and_check, check_outputs. py; try discriminate.
  intros _. destruct (file_exists out w0) eqn:F; simp; cbn; rewrite F;
    reflexivity.
Qed.

End RunAndCheck.

(** ** WarpImageMultiTransform *)

Section Warp.
Context {P : Platform}.
Variables (source target output interp : string).
Variables (xfm_stem affine_transform nonlinear_transform : string).
Variables (inverse affine_only : bool) (w : World).

Let affine := resolved_affine xfm_stem affine_transform.
Let nonlinear := resolved_nonlinear xfm_stem nonlinear_transform inverse.
Let out := default_path output "WarpImageMultiTransform.nii.gz" w.

(** Without any transform the function leaves through [sys.exit] before
    doing anything. *)
Lemma Warp_exit :
  transforms_given xfm_stem affine_transform nonlinear_transform = false ->
  WarpImageMultiTransform source target output interp xfm_stem
    affine_transform nonlinear_transform inverse affine_only w
  = sys_exit no_transform_message w.
Proof.
  unfold transforms_given, WarpImageMultiTransform.
  destruct xfm_stem, affine_transform, nonlinear_transform;
    try discriminate.
  intros _. reflexivity.
Qed.

(** With a transform it runs one command and checks [output]. *)
Lemma Warp_run :
  transforms_given xfm_stem affine_transform nonlinear_transform = true ->
  WarpImageMultiTransform source target output interp xfm_stem
    affine_transform nonlinear_transform inverse affine_only w
  = run_and_check
      (if affine_only || negb (file_exists nonlinear w)
       then affine_only_command source target out interp affine inverse
       else both_transforms_command source target out interp affine
              nonlinear inverse)
      out w.
Proof.
  subst affine nonlinear out.
  unfold transforms_given, WarpImageMultiTransform, resolved_affine,
    resolved_nonlinear, default_path, run_and_check.
  intros G.
  destruct xfm_stem as [| a s].
  - destruct affine_transform, nonlinear_transform; try discriminate G;
      destruct output; simp; autorewrite with py; simp;
      destruct (file_exists _ w), affine_only, inverse; reflexivity.
  - destruct output; simp; autorewrite with py; simp;
      destruct inverse; simp;
      destruct (file_exists _ w), affine_only; reflexivity.
Qed.

End Warp.

(** C9: when the nonlinear transform does not exist at the time of the
    call, [WarpImageMultiTransform] behaves as with [affine_only=True]
    whatever the caller passed: the only command it can run is the one with
    the affine transform alone, and the missing file raises nothing; the
    run ends as the command and the check of [output] decide. *)
Theorem Warp_without_nonlinear_is_affine_only {P : Platform}
    (source target output interp : string)
    (xfm_stem affine_transform nonlinear_transform : string)
    (inverse affine_only : bool) (w : World) :
  let affine := resolved_affine xfm_stem affine_transform in
  let nonlinear := resolved_nonlinear xfm_stem nonlinear_transform inverse in
  let out := default_path output "WarpImageMultiTransform.nii.gz" w in
  let command :=
    affine_only_command source target out interp affine inverse in
  let r := WarpImageMultiTransform source target output interp xfm_stem
             affine_transform nonlinear_transform inverse affine_only w in
  file_exists nonlinear w = false ->
  r = WarpImageMultiTransform source target output interp xfm_stem
        affine_transform nonlinear_transform inverse true w
  /\ (forall c, In c (made r) -> c = os_call command)
  /\ (transforms_given xfm_stem affine_transform nonlinear_transform = true ->
      made r = [os_call command]
      /\ (all_returned r = true ->
          result r = check_outputs [out] out (final r))).
Proof.
  intros affine nonlinear out command r Hmissing. subst r.
  destruct (transforms_given xfm_stem affine_transform nonlinear_transform)
    eqn:G.
  - rewrite !Warp_run by exact G.
    fold affine nonlinear out. rewrite Hmissing, orb_true_r. cbn [orb].
    fold command. split; [reflexivity |].
    rewrite run_and_check_made. split.
    + intros c [<- | []]. reflexivity.
    + intros _. split; [reflexivity | apply run_and_check_all_returned].
  - rewrite !Warp_exit by exact G. split; [reflexivity |].
    split; [intros c [] | discriminate].
Qed.

Lemma Warp_without_nonlinear_is_affine_only_witness :
  let r := WarpImageMultiTransform (P := Demo.platform) "labels.nii.gz"
             "t1.nii.gz" EmptyString "--use-NN" "/xfm/a_to_b" EmptyString
             EmptyString false false Demo.fresh in
  (Demo.exists_in "/xfm/a_to_bWarp.nii.gz" Demo.fresh = false
   /\ transforms_given "/xfm/a_to_b" EmptyString EmptyString = true
   /\ all_returned r = true)
  /\ made r = [os_call (cmd_list ["WarpImageMultiTransform"; "3";
                                  "labels.nii.gz";
                                  "/data/WarpImageMultiTransform.nii.gz";
                                  "-R"; "t1.nii.gz"; "--use-NN";
                                  "/xfm/a_to_bAffine.txt"])]
  /\ result r = Return "/data/WarpImageMultiTransform.nii.gz".
Proof.
  split; [split; [| split]; reflexivity |].
  destruct (Warp_without_nonlinear_is_affine_only (P := Demo.platform)
              "labels.nii.gz" "t1.nii.gz" EmptyString "--use-NN"
              "/xfm/a_to_b" EmptyString EmptyString false false Demo.fresh
              eq_refl) as (_ & _ & H).
  destruct (H eq_refl) as [Hmade Hresult].
  split; [exact Hmade | exact (Hresult eq_refl)].
Defined.

(** ** PropagateLabelsThroughMask *)

Section Propagate.
Context {P : Platform}.
Variables (mask_volume label_volume : string) (mask_index : option Z).
Variables (output_file : string) (binarize : bool) (w : World).

Let out := default_path output_file "PropagateLabelsThroughMask.nii.gz" w.
Let temp_file := os.path_join (cwd w) "PropagateLabelsThroughMask.nii.gz".

(** A false [mask_index] ([None] or [0]): binarize if asked, then
    propagate through the resulting mask volume. *)
Lemma Propagate_without_index :
  mask_index_truthy mask_index = false ->
  PropagateLabelsThroughMask mask_volume label_volume mask_index
    output_file binarize w
  = if binarize
    then (execute (binarize_command mask_volume temp_file) (Some "os") ;;;
          run_and_check (propagate_command out temp_file label_volume) out)
           w
    else run_and_check (propagate_command out mask_volume label_volume)
           out w.
Proof.
  subst out temp_file.
  unfold PropagateLabelsThroughMask, default_path, binarize_command,
    propagate_command.
  intros ->. destruct output_file, binarize; simp; py; reflexivity.
Qed.

(** A true [mask_index]: after the optional binarization the call
    [os.getcwd('temp.nii.gz')] raises [TypeError]. *)
Lemma Propagate_with_index :
  mask_index_truthy mask_index = true ->
  PropagateLabelsThroughMask mask_volume label_volume mask_index
    output_file binarize w
  = if binarize
    then (execute (binarize_command mask_volume temp_file) (Some "os") ;;;
          raise (TypeError "getcwd() takes no arguments (1 given)")) w
    else raise (TypeError "getcwd() takes no arguments (1 given)") w.
Proof.
  subst out temp_file.
  unfold PropagateLabelsThroughMask, default_path, binarize_command.
  intros ->. destruct output_file, binarize; simp; py; reflexivity.
Qed.

(** What is returned was found on disk. *)
Lemma Propagate_returns_existing p :
  let r := PropagateLabelsThroughMask mask_volume label_volume mask_index
             output_file binarize w in
  result r = Return p -> file_exists p (final r) = true.
Proof.
  intros r. subst r.
  destruct (mask_index_truthy mask_index) eqn:T.
  - rewrite Propagate_with_index by exact T.
    destruct binarize; py; discriminate.
  - rewrite Propagate_without_index by exact T.
    destruct binarize.
    + unfold execute. rewrite bind_external.
      destruct (run_execute _ _ w) as [[[] | e | msg] w1];
        try discriminate.
      cbn [after result final]. intros H.
      destruct (run_and_check_returns _ _ _ _ H) as [-> F]. exact F.
    + intros H. destruct (run_and_check_returns _ _ _ _ H) as [-> F].
      exact F.
Qed.

End Propagate.

(** ** The check after the command *)

Lemma ImageMath_run {P : Platform}
    (volume1 volume2 operator output_file : string) (w : World) :
  let out := default_path output_file "ImageMath.nii.gz" w in
  ImageMath volume1 volume2 operator output_file w
  = run_and_check
      (cmd_list ["ImageMath"; "3"; out; operator; volume1; volume2]) out w.
Proof.
  unfold ImageMath, default_path, run_and_check.
  destruct output_file; simp; autorewrite with py; reflexivity.
Qed.

Lemma run_and_check_completed {P : Platform} tool cmd out (w : World) :
  completed tool (run_and_check cmd out w) = true ->
  all_returned (run_and_check cmd out w) = true.
Proof.
  unfold run_and_check, completed. py.
  - intros _. destruct (file_exists out w0); reflexivity.
  - cbn. destruct cmd as [[| t argv] | line]; discriminate.
  - cbn. destruct cmd as [[| t argv] | line]; discriminate.
Qed.

Ltac split_exists :=
  repeat match goal with
         | |- context [if file_exists ?p ?w then _ else _] =>
             destruct (file_exists p w) eqn:?; simp; py
         end;
  repeat match goal with
         | H : file_exists _ _ = _ |- _ => rewrite H
         end;
  cbn [negb].

(** C1: in [ImageMath], [ANTS], [WarpImageMultiTransform] and
    [PropagateLabelsThroughMask], once the external command has been
    invoked and has returned, the function checks each expected output
    file in the world the command left: the first one that does not exist
    gives [IOError] with the path followed by [" not found"]; when all
    exist the output path(s) are returned. *)
Theorem outputs_checked_after_command {P : Platform} :
  (forall volume1 volume2 operator output_file w,
      let r := ImageMath volume1 volume2 operator output_file w in
      let out := default_path output_file "ImageMath.nii.gz" w in
      completed "ImageMath" r = true ->
      result r = check_outputs [out] out (final r))
  /\ (forall source target iterations output_stem w,
         let r := ANTS source target iterations output_stem w in
         let stem := if PyStr.truthy output_stem then output_stem
                     else derived_stem source target w in
         completed "ANTS" r = true ->
         result r =
         check_outputs
           [stem ++ "Affine.txt"; stem ++ "Warp.nii.gz";
            stem ++ "InverseWarp.nii.gz"]
           (stem ++ "Affine.txt", stem ++ "Warp.nii.gz",
            stem ++ "InverseWarp.nii.gz", stem)
           (final r))
  /\ (forall source target output interp xfm_stem affine_transform
             nonlinear_transform inverse affine_only w,
         let r := WarpImageMultiTransform source target output interp
                    xfm_stem affine_transform nonlinear_transform inverse
                    affine_only w in
         let out := default_path output "WarpImageMultiTransform.nii.gz" w in
         completed "WarpImageMultiTransform" r = true ->
         result r = check_outputs [out] out (final r))
  /\ (forall mask_volume label_volume mask_index output_file binarize w,
         let r := PropagateLabelsThroughMask mask_volume label_volume
                    mask_index output_file binarize w in
         let out :=
           default_path output_file "PropagateLabelsThroughMask.nii.gz" w in
         completed "ImageMath" r = true ->
         result r = check_outputs [out] out (final r)).
Proof.
  repeat split.
  - intros volume1 volume2 operator output_file w r out. subst r out.
    rewrite ImageMath_run. intros H.
    apply run_and_check_all_returned, (run_and_check_completed _ _ _ _ H).
  - intros source target iterations output_stem w r stem. subst r stem.
    unfold ANTS, derived_stem, completed, check_outputs.
    destruct output_stem; simp; py; try discriminate; intros _; cbn [find];
      split_exists; reflexivity.
  - intros source target output interp xfm_stem affine_transform
           nonlinear_transform inverse affine_only w r out. subst r out.
    destruct (transforms_given xfm_stem affine_transform nonlinear_transform)
      eqn:G.
    + rewrite Warp_run by exact G. intros H.
      apply run_and_check_all_returned, (run_and_check_completed _ _ _ _ H).
    + rewrite Warp_exit by exact G. discriminate.
  - intros mask_volume label_volume mask_index output_file binarize w r out.
    subst r out.
    destruct (mask_index_truthy mask_index) eqn:T.
    + rewrite Propagate_with_index by exact T.
      destruct binarize; py; discriminate.
    + rewrite Propagate_without_index by exact T.
      destruct binarize.
      * unfold completed, check_outputs. py; try discriminate.
        intros _. cbn [find]. split_exists; reflexivity.
      * intros H.
        apply run_and_check_all_returned,
          (run_and_check_completed _ _ _ _ H).
Qed.

Lemma outputs_checked_after_command_witness :
  let image := ImageMath (P := Demo.platform) "t1.nii.gz" "mask.nii.gz" "m"
                         EmptyString Demo.fresh in
  let ants := ANTS (P := Demo.platform) "/in/t1.nii.gz" "/in/atlas.nii.gz"
                   "0" "/out/x" Demo.bare in
  let warp := WarpImageMultiTransform (P := Demo.platform) "labels.nii.gz"
                "t1.nii.gz" "/out/warped.nii.gz" "--use-NN" "/out/x"
                EmptyString EmptyString true false Demo.bare in
  let labels := PropagateLabelsThroughMask (P := Demo.platform)
                  "brain.nii.gz" "labels.nii.gz" None EmptyString true
                  Demo.fresh in
  (completed "ImageMath" image = true
   /\ result image = Return "/data/ImageMath.nii.gz")
  /\ (completed "ANTS" ants = true
      /\ result ants = Raise (IOError "/out/xAffine.txt not found"))
  /\ (completed "WarpImageMultiTransform" warp = true
      /\ result warp = Raise (IOError "/out/warped.nii.gz not found"))
  /\ (completed "ImageMath" labels = true
      /\ result labels = Return "/data/PropagateLabelsThroughMask.nii.gz").
Proof.
  destruct (outputs_checked_after_command (P := Demo.platform))
    as (HI & HA & HW & HP).
  intros image ants warp labels.
  refine (conj (conj eq_refl _) (conj (conj eq_refl _)
            (conj (conj eq_refl _) (conj eq_refl _)))).
  - exact (HI "t1.nii.gz" "mask.nii.gz" "m" EmptyString Demo.fresh eq_refl).
  - exact (HA "/in/t1.nii.gz" "/in/atlas.nii.gz" "0" "/out/x" Demo.bare
              eq_refl).
  - exact (HW "labels.nii.gz" "t1.nii.gz" "/out/warped.nii.gz" "--use-NN"
              "/out/x" EmptyString EmptyString true false Demo.bare eq_refl).
  - exact (HP "brain.nii.gz" "labels.nii.gz" None EmptyString true
              Demo.fresh eq_refl).
Defined.

(** ** The mask index *)

(** C6: a call to [PropagateLabelsThroughMask] with a non-zero
    [mask_index] never gets to threshold the mask at that index: the only
    command it can run is the binarization, then [os.getcwd('temp.nii.gz')]
    raises [TypeError], so no label is propagated and nothing is
    returned. *)
Theorem mask_index_step_raises_TypeError {P : Platform}
    (mask_volume label_volume : string) (n : Z) (output_file : string)
    (binarize : bool) (w : World) :
  n <> 0 ->
  let r := PropagateLabelsThroughMask mask_volume label_volume (Some n)
             output_file binarize w in
  let temp_file := os.path_join (cwd w) "PropagateLabelsThroughMask.nii.gz" in
  made r = (if binarize
            then [os_call (binarize_command mask_volume temp_file)]
            else [])
  /\ is_return (result r) = false
  /\ (all_returned r = true ->
      result r = Raise (TypeError "getcwd() takes no arguments (1 given)")).
Proof.
  intros Hn r temp_file. subst r temp_file.
  assert (T : mask_index_truthy (Some n) = true).
  { cbn. destruct (Z.eqb_spec n 0); [contradiction | reflexivity]. }
  rewrite Propagate_with_index by exact T.
  destruct binarize; py; repeat split; congruence.
Qed.

Lemma mask_index_step_raises_TypeError_witness :
  let r := PropagateLabelsThroughMask (P := Demo.platform) "brain.nii.gz"
             "labels.nii.gz" (Some 2) EmptyString true Demo.fresh in
  (2 <> 0 /\ all_returned r = true)
  /\ made r = [os_call (binarize_command "brain.nii.gz"
                         "/data/PropagateLabelsThroughMask.nii.gz")]
  /\ result r = Raise (TypeError "getcwd() takes no arguments (1 given)").
Proof.
  split; [split; [discriminate | reflexivity] |].
  destruct (mask_index_step_raises_TypeError (P := Demo.platform)
              "brain.nii.gz" "labels.nii.gz" 2 EmptyString true Demo.fresh)
    as (Hmade & _ & Hresult); [discriminate |].
  split; [exact Hmade | exact (Hresult eq_refl)].
Defined.

(** C10: [mask_index=0] and [mask_index=None] give the same run of
    [PropagateLabelsThroughMask]: no thresholding at the index is done, the
    only commands are the optional binarization and the propagation, and
    the propagation goes through the (possibly binarized) mask volume. *)
Theorem mask_index_zero_is_none {P : Platform}
    (mask_volume label_volume output_file : string) (binarize : bool)
    (w : World) :
  let r := PropagateLabelsThroughMask mask_volume label_volume (Some 0)
             output_file binarize w in
  let out :=
    default_path output_file "PropagateLabelsThroughMask.nii.gz" w in
  let temp_file := os.path_join (cwd w) "PropagateLabelsThroughMask.nii.gz" in
  let mask := if binarize then temp_file else mask_volume in
  r = PropagateLabelsThroughMask mask_volume label_volume None output_file
        binarize w
  /\ (forall c, In c (made r) ->
                (binarize = true
                 /\ c = os_call (binarize_command mask_volume temp_file))
                \/ c = os_call (propagate_command out mask label_volume))
  /\ (all_returned r = true ->
      made r =
      ((if binarize then [os_call (binarize_command mask_volume temp_file)]
        else [])
       ++ [os_call (propagate_command out mask label_volume)])%list).
Proof.
  intros r out temp_file mask. subst r.
  rewrite !Propagate_without_index by reflexivity.
  fold out temp_file. split; [reflexivity |].
  destruct binarize; subst mask.
  - py; split_exists; split; try discriminate; try reflexivity;
      intros c Hc; cbn in Hc; intuition auto.
  - rewrite run_and_check_made. split; [| reflexivity].
    intros c [<- | []]. right; reflexivity.
Qed.

Lemma mask_index_zero_is_none_witness :
  let r := PropagateLabelsThroughMask (P := Demo.platform) "brain.nii.gz"
             "labels.nii.gz" (Some 0) "/out/filled.nii.gz" true
             Demo.fresh in
  all_returned r = true
  /\ made r =
     [os_call (binarize_command "brain.nii.gz"
                 "/data/PropagateLabelsThroughMask.nii.gz");
      os_call (propagate_command "/out/filled.nii.gz"
                 "/data/PropagateLabelsThroughMask.nii.gz" "labels.nii.gz")].
Proof.
  split; [reflexivity |].
  exact (proj2 (proj2 (mask_index_zero_is_none (P := Demo.platform)
                         "brain.nii.gz" "labels.nii.gz" "/out/filled.nii.gz"
                         true Demo.fresh)) eq_refl).
Defined.

(** C8: with an empty [output_file] and [binarize=True], the temporary
    file the binarized mask is written to is the defaulted output path,
    ['PropagateLabelsThroughMask.nii.gz'] in the working directory: the
    binarization writes it, the propagation reads it as the mask and
    writes its output to it, and it is the path returned. *)
Theorem binarized_mask_shares_default_output {P : Platform}
    (mask_volume label_volume : string) (mask_index : option Z) (w : World) :
  let r := PropagateLabelsThroughMask mask_volume label_volume mask_index
             EmptyString true w in
  let out := os.path_join (cwd w) "PropagateLabelsThroughMask.nii.gz" in
  default_path EmptyString "PropagateLabelsThroughMask.nii.gz" w = out
  /\ hd_error (made r) = Some (os_call (binarize_command mask_volume out))
  /\ (forall p, result r = Return p -> p = out)
  /\ (mask_index_truthy mask_index = false ->
      all_returned r = true ->
      made r = [os_call (binarize_command mask_volume out);
                os_call (propagate_command out out label_volume)]).
Proof.
  intros r out. subst r out. split; [reflexivity |].
  destruct (mask_index_truthy mask_index) eqn:T.
  - rewrite Propagate_with_index by exact T.
    py; repeat split; congruence.
  - rewrite Propagate_without_index by exact T.
    unfold default_path. simp.
    py; split_exists; repeat split; congruence.
Qed.

Lemma binarized_mask_shares_default_output_witness :
  let r := PropagateLabelsThroughMask (P := Demo.platform) "brain.nii.gz"
             "labels.nii.gz" None EmptyString true Demo.fresh in
  (result r = Return "/data/PropagateLabelsThroughMask.nii.gz"
   /\ mask_index_truthy None = false
   /\ all_returned r = true)
  /\ made r =
     [os_call (binarize_command "brain.nii.gz"
                 "/data/PropagateLabelsThroughMask.nii.gz");
      os_call (propagate_command "/data/PropagateLabelsThroughMask.nii.gz"
                 "/data/PropagateLabelsThroughMask.nii.gz" "labels.nii.gz")].
Proof.
  split; [split; [| split]; reflexivity |].
  exact (proj2 (proj2 (proj2
           (binarized_mask_shares_default_output (P := Demo.platform)
              "brain.nii.gz" "labels.nii.gz" None Demo.fresh)))
           eq_refl eq_refl).
Defined.

(** ** fill_volume_with_surface_labels *)

Section Fill.
Context {P : Platform}.
Variables (volume_mask : string) (mask_index : option Z).
Variables (output_file : string) (binarize : bool).

(** The function without its last check, which repeats the one
    [PropagateLabelsThroughMask] has just made. *)
Lemma fill_run (surface_files : SurfaceFiles) (w : World) :
  fill_volume_with_surface_labels volume_mask surface_files mask_index
    output_file binarize w
  = (first <- py_index (surfaces surface_files) 0 ;;
     surface_in_volume <- transform_to_volume first volume_mask ;;
     surface_in_volume <-
       (if Nat.eqb (List.length (surfaces surface_files)) 2
        then here <- os.getcwd [] ;;
             second <- py_index (surfaces surface_files) 1 ;;
             surface_in_volume2 <- transform_to_volume second volume_mask ;;
             overwrite_volume_labels surface_in_volume surface_in_volume2
               (os.path_join here "surfaces.nii.gz") [0] ;;;
             ret (os.path_join here "surfaces.nii.gz")
        else ret surface_in_volume) ;;
     PropagateLabelsThroughMask volume_mask surface_in_volume mask_index
       output_file binarize) w.
Proof.
  unfold fill_volume_with_surface_labels.
  fold (surfaces surface_files).
  destruct (surfaces surface_files) as [| f1 [| f2 [| f3 fs]]]; py;
    try reflexivity;
    rewrite bind_checked
      by (intros p; apply Propagate_returns_existing);
    reflexivity.
Qed.

End Fill.

(** C7: [fill_volume_with_surface_labels] given one surface, as a string
    or as a one-element list, transforms exactly that surface to the
    volume and hands the result to [PropagateLabelsThroughMask]; given two,
    it transforms both, merges them with [overwrite_volume_labels] and
    [ignore_labels=[0]] into ['surfaces.nii.gz'] in the working directory
    and hands that to the propagation; what the propagation gives is what
    the function gives. *)
Theorem fill_volume_with_one_or_two_surfaces {P : Platform}
    (volume_mask : string) (mask_index : option Z) (output_file : string)
    (binarize : bool) (w : World) :
  let one f :=
    (surface_in_volume <- transform_to_volume f volume_mask ;;
     PropagateLabelsThroughMask volume_mask surface_in_volume mask_index
       output_file binarize) w in
  (forall f,
      fill_volume_with_surface_labels volume_mask (one_file f) mask_index
        output_file binarize w = one f)
  /\ (forall f,
         fill_volume_with_surface_labels volume_mask (file_list [f])
           mask_index output_file binarize w = one f)
  /\ (forall f1 f2,
         fill_volume_with_surface_labels volume_mask (file_list [f1; f2])
           mask_index output_file binarize w
         = (surface_in_volume <- transform_to_volume f1 volume_mask ;;
            here <- os.getcwd [] ;;
            surface_in_volume2 <- transform_to_volume f2 volume_mask ;;
            overwrite_volume_labels surface_in_volume surface_in_volume2
              (os.path_join here "surfaces.nii.gz") [0] ;;;
            PropagateLabelsThroughMask volume_mask
              (os.path_join here "surfaces.nii.gz") mask_index output_file
              binarize) w).
Proof.
  intros one. subst one.
  split; [| split]; intros; rewrite fill_run; py; reflexivity.
Qed.

(** ** The ways a call can fail *)

Lemma check_outputs_misses_expected {P : Platform} {A : Type}
    (expected : list string) (v : A) (r : Run A) :
  result r = check_outputs expected v (final r) ->
  returns_or_misses_one_of expected r.
Proof.
  unfold check_outputs. intros H.
  destruct (find (fun p => negb (file_exists p (final r))) expected)
    as [p |] eqn:F.
  - apply find_some in F as [Hin Hmissing].
    apply (run_misses _ _ p); [exact Hin | exact H |].
    destruct (file_exists p (final r)); [discriminate | reflexivity].
  - apply (run_returns _ _ v). exact H.
Qed.

(** With a false [mask_index] and helpers that return,
    [PropagateLabelsThroughMask] ends as the check of its output decides. *)
Lemma Propagate_checks_output {P : Platform}
    (mask_volume label_volume : string) (mask_index : option Z)
    (output_file : string) (binarize : bool) (w : World) :
  let r := PropagateLabelsThroughMask mask_volume label_volume mask_index
             output_file binarize w in
  let out :=
    default_path output_file "PropagateLabelsThroughMask.nii.gz" w in
  mask_index_truthy mask_index = false ->
  all_returned r = true ->
  result r = check_outputs [out] out (final r).
Proof.
  intros r out T. subst r out. rewrite Propagate_without_index by exact T.
  destruct binarize.
  - unfold execute. rewrite bind_external.
    destruct (run_execute _ _ w) as [[[] | e | msg] w1]; try discriminate.
    cbn [all_returned after calls forallb ev_returned andb result final].
    apply run_and_check_all_returned.
  - apply run_and_check_all_returned.
Qed.

(** [fill_volume_with_surface_labels] is the conversion of the surfaces
    followed by the propagation. *)
Lemma fill_split {P : Platform}
    (volume_mask : string) (surface_files : SurfaceFiles)
    (mask_index : option Z) (output_file : string) (binarize : bool)
    (w : World) :
  fill_volume_with_surface_labels volume_mask surface_files mask_index
    output_file binarize w
  = (surface_in_volume <-
       surfaces_to_volume volume_mask (surfaces surface_files) ;;
     PropagateLabelsThroughMask volume_mask surface_in_volume mask_index
       output_file binarize) w.
Proof.
  rewrite fill_run. unfold surfaces_to_volume.
  destruct (surfaces surface_files) as [| f1 [| f2 [| f3 fs]]]; py;
    reflexivity.
Qed.

(** C2, as the specification states it, fails: without any transform
    [WarpImageMultiTransform] stops the interpreter through [sys.exit],
    although no helper failed and no output file was looked for. *)
Lemma sys_exit_without_transform :
  let r := WarpImageMultiTransform (P := Demo.platform) "labels.nii.gz"
             "t1.nii.gz" EmptyString "--use-NN" EmptyString EmptyString
             EmptyString false false Demo.fresh in
  result r = SysExit no_transform_message
  /\ all_returned r = true
  /\ ~ returns_or_misses_output r.
Proof.
  split; [reflexivity | split; [reflexivity |]].
  intros [v H | p H F]; discriminate H.
Qed.

(** C2, amended: as long as the helpers called outside the module return,
    [ImageMath] and [ANTS] fail only by raising [IOError] for one of their
    expected output files that does not exist (the output file of
    [ImageMath]; the affine, warp and inverse warp files of the stem of
    [ANTS]); so do [PropagateLabelsThroughMask] for its output file when
    [mask_index] is [None] or [0], and [fill_volume_with_surface_labels]
    for the output file of its propagation when moreover it is given at
    least one surface; [WarpImageMultiTransform] fails the same way for
    its output when a transform is named, and when none is it stops the
    interpreter through [sys.exit] before running any command. *)
Theorem failure_modes {P : Platform} :
  (forall volume1 volume2 operator output_file w,
      let r := ImageMath volume1 volume2 operator output_file w in
      let out := default_path output_file "ImageMath.nii.gz" w in
      all_returned r = true -> returns_or_misses_one_of [out] r)
  /\ (forall source target iterations output_stem w,
         let r := ANTS source target iterations output_stem w in
         let stem := ANTS_stem source target output_stem w in
         all_returned r = true ->
         returns_or_misses_one_of
           [stem ++ "Affine.txt"; stem ++ "Warp.nii.gz";
            stem ++ "InverseWarp.nii.gz"] r)
  /\ (forall source target output interp xfm_stem affine_transform
             nonlinear_transform inverse affine_only w,
         let r := WarpImageMultiTransform source target output interp
                    xfm_stem affine_transform nonlinear_transform inverse
                    affine_only w in
         let out := default_path output "WarpImageMultiTransform.nii.gz" w in
         if transforms_given xfm_stem affine_transform nonlinear_transform
         then all_returned r = true -> returns_or_misses_one_of [out] r
         else result r = SysExit no_transform_message /\ calls r = [])
  /\ (forall mask_volume label_volume mask_index output_file binarize w,
         let r := PropagateLabelsThroughMask mask_volume label_volume
                    mask_index output_file binarize w in
         let out :=
           default_path output_file "PropagateLabelsThroughMask.nii.gz" w in
         mask_index_truthy mask_index = false ->
         all_returned r = true -> returns_or_misses_one_of [out] r)
  /\ (forall volume_mask surface_files mask_index output_file binarize w,
         let r := fill_volume_with_surface_labels volume_mask surface_files
                    mask_index output_file binarize w in
         let converted :=
           surfaces_to_volume volume_mask (surfaces surface_files) w in
         let out :=
           default_path output_file "PropagateLabelsThroughMask.nii.gz"
             (final converted) in
         surfaces surface_files <> [] ->
         mask_index_truthy mask_index = false ->
         all_returned r = true -> returns_or_misses_one_of [out] r).
Proof.
  split; [| split; [| split; [| split]]].
  - intros volume1 volume2 operator output_file w r out H. subst r out.
    rewrite ImageMath_run in *.
    eapply check_outputs_misses_expected, run_and_check_all_returned, H.
  - intros source target iterations output_stem w r stem. subst r stem.
    intros H.
    apply (check_outputs_misses_expected _
             (ANTS_stem source target output_stem w ++ "Affine.txt",
              ANTS_stem source target output_stem w ++ "Warp.nii.gz",
              ANTS_stem source target output_stem w ++ "InverseWarp.nii.gz",
              ANTS_stem source target output_stem w)).
    revert H. unfold ANTS, ANTS_stem, derived_stem, check_outputs.
    destruct output_stem; simp; py; try discriminate; intros _; cbn [find];
      split_exists; reflexivity.
  - intros source target output interp xfm_stem affine_transform
           nonlinear_transform inverse affine_only w r out. subst r out.
    destruct (transforms_given xfm_stem affine_transform nonlinear_transform)
      eqn:G.
    + rewrite Warp_run by exact G. intros H.
      eapply check_outputs_misses_expected, run_and_check_all_returned, H.
    + rewrite Warp_exit by exact G. split; reflexivity.
  - intros mask_volume label_volume mask_index output_file binarize w r out
           T H.
    eapply check_outputs_misses_expected, Propagate_checks_output;
      assumption.
  - intros volume_mask surface_files mask_index output_file binarize w r
           converted out Hne T. subst r out converted.
    rewrite fill_split. unfold surfaces_to_volume.
    destruct (surfaces surface_files) as [| f1 [| f2 [| f3 fs]]];
      [congruence | | |]; py; try discriminate;
      intros H;
      match goal with
      | |- returns_or_misses_one_of [?out] _ =>
          apply (check_outputs_misses_expected _ out)
      end;
      simp; apply Propagate_checks_output; assumption.
Qed.

Lemma failure_modes_witness :
  let ants := ANTS (P := Demo.platform) "/in/t1.nii.gz" "/in/atlas.nii.gz"
                   "0" "/out/x" Demo.bare in
  let labels := fill_volume_with_surface_labels (P := Demo.platform)
                  "brain.nii.gz" (file_list ["lh.vtk"; "rh.vtk"]) (Some 0)
                  "/out/filled.nii.gz" true Demo.bare in
  (all_returned ants = true
   /\ returns_or_misses_one_of
        ["/out/xAffine.txt"; "/out/xWarp.nii.gz"; "/out/xInverseWarp.nii.gz"]
        ants)
  /\ ((surfaces (file_list ["lh.vtk"; "rh.vtk"]) <> []
       /\ mask_index_truthy (Some 0) = false
       /\ all_returned labels = true)
      /\ returns_or_misses_one_of ["/out/filled.nii.gz"] labels).
Proof.
  destruct (failure_modes (P := Demo.platform)) as (_ & HA & _ & _ & HF).
  intros ants labels.
  refine (conj (conj eq_refl _) (conj (conj _ (conj eq_refl eq_refl)) _)).
  - exact (HA "/in/t1.nii.gz" "/in/atlas.nii.gz" "0" "/out/x" Demo.bare
              eq_refl).
  - discriminate.
  - apply (HF "brain.nii.gz" (file_list ["lh.vtk"; "rh.vtk"]) (Some 0)
              "/out/filled.nii.gz" true Demo.bare);
      [discriminate | reflexivity | reflexivity].
Defined.

(** * Further properties *)

(** ** File names *)

Section FileNames.
Variable c : ascii.

Lemma has_char_app (s t : string) :
  has_char c (s ++ t) = has_char c s || has_char c t.
Proof.
  induction s as [| a r IH]; cbn; [reflexivity |].
  rewrite IH, orb_assoc. reflexivity.
Qed.

Lemma truthy_app (s t : string) :
  PyStr.truthy (s ++ t) = PyStr.truthy s || PyStr.truthy t.
Proof. destruct s; reflexivity. Qed.

Lemma rfind_from_app (s t : string) (i last : Z) :
  PyStr.rfind_from c (s ++ t) i last
  = PyStr.rfind_from c t (i + Z.of_nat (String.length s))
      (PyStr.rfind_from c s i last).
Proof.
  revert i last. induction s as [| a r IH]; intros i last; cbn [append].
  - cbn. f_equal. lia.
  - cbn [PyStr.rfind_from String.length]. rewrite IH. f_equal. lia.
Qed.

Lemma rfind_from_absent (s : string) (i last : Z) :
  has_char c s = false -> PyStr.rfind_from c s i last = last.
Proof.
  revert i last. induction s as [| a r IH]; intros i last; cbn.
  - reflexivity.
  - destruct (Ascii.eqb a c); [discriminate |]. cbn. apply IH.
Qed.

Lemma slice_from_app (s t : string) :
  PyStr.slice_from (String.length s) (s ++ t) = t.
Proof. induction s as [| a r IH]; [destruct t; reflexivity | exact IH]. Qed.

(** A string with a [c] splits at its last [c]. *)
Lemma split_at_last (s : string) :
  has_char c s = true ->
  exists d n, s = d ++ String c n /\ has_char c n = false.
Proof.
  induction s as [| a r IH]; cbn; [discriminate |].
  destruct (has_char c r) eqn:R.
  - intros _. destruct (IH eq_refl) as (d & n & -> & Hn).
    exists (String a d), n. split; [reflexivity | exact Hn].
  - rewrite orb_false_r. intros Ha. apply Ascii.eqb_eq in Ha. subst a.
    exists EmptyString, r. split; [reflexivity | exact R].
Qed.

Lemma endswith_split (s : string) :
  PyStr.endswith c s = true -> exists d, s = d ++ String c EmptyString.
Proof.
  induction s as [| a r IH]; [discriminate |].
  destruct r as [| b r'].
  - cbn. intros Ha. apply Ascii.eqb_eq in Ha. subst a.
    exists EmptyString. reflexivity.
  - intros H. destruct (IH H) as [d ->].
    exists (String a d). reflexivity.
Qed.

Lemma up_to_first_absent (n : string) :
  has_char c n = false -> up_to_first c n = n.
Proof.
  induction n as [| a r IH]; cbn; [reflexivity |].
  destruct (Ascii.eqb a c); [discriminate |]. cbn.
  intros H. rewrite IH by exact H. reflexivity.
Qed.

Lemma up_to_first_app (n e : string) :
  has_char c n = false -> up_to_first c (n ++ String c e) = n.
Proof.
  induction n as [| a r IH]; cbn.
  - rewrite Ascii.eqb_refl. reflexivity.
  - destruct (Ascii.eqb a c); [discriminate |]. cbn.
    intros H. rewrite IH by exact H. reflexivity.
Qed.

Lemma has_char_up_to_first (d : ascii) (s : string) :
  has_char d s = false -> has_char d (up_to_first c s) = false.
Proof.
  induction s as [| a r IH]; cbn; [reflexivity |].
  destruct (Ascii.eqb a c); [reflexivity |]. cbn.
  destruct (Ascii.eqb a d); [discriminate | exact IH].
Qed.

End FileNames.

(** [basename] of a path without slash is the path. *)
Lemma basename_plain (n : string) :
  has_char "/" n = false -> os.path_basename n = n.
Proof.
  intros H. unfold os.path_basename, PyStr.rfind.
  rewrite rfind_from_absent by exact H. reflexivity.
Qed.

(** [basename] keeps what follows the last slash. *)
Lemma basename_after_slash (d n : string) :
  has_char "/" n = false -> os.path_basename (d ++ String "/" n) = n.
Proof.
  intros H. unfold os.path_basename, PyStr.rfind.
  rewrite rfind_from_app. cbn [PyStr.rfind_from].
  rewrite Ascii.eqb_refl, rfind_from_absent by exact H.
  replace (Z.to_nat (0 + Z.of_nat (String.length d) + 1))
    with (String.length (d ++ String "/" EmptyString)).
  - replace (d ++ String "/" n)
      with ((d ++ String "/" EmptyString) ++ n).
    + apply slice_from_app.
    + induction d as [| a r IH]; cbn; [reflexivity | now rewrite IH].
  - induction d as [| a r IH]; cbn [append String.length]; [reflexivity |].
    rewrite IH. lia.
Qed.

Lemma basename_has_no_slash (p : string) :
  has_char "/" (os.path_basename p) = false.
Proof.
  destruct (has_char "/" p) eqn:H.
  - destruct (split_at_last _ _ H) as (d & n & -> & Hn).
    rewrite basename_after_slash by exact Hn. exact Hn.
  - rewrite basename_plain by exact H. exact H.
Qed.

(** Joining a plain name to a directory and taking the [basename] gives
    the name back. *)
Lemma basename_path_join (a b : string) :
  has_char "/" b = false -> os.path_basename (os.path_join a b) = b.
Proof.
  intros H. unfold os.path_join.
  assert (S : PyStr.startswith "/" b = false).
  { destruct b as [| x r]; [reflexivity |]. cbn in H |- *.
    destruct (Ascii.eqb x "/"); [discriminate | reflexivity]. }
  rewrite S. destruct a as [| x r].
  - cbn. apply basename_plain, H.
  - cbn [PyStr.truthy negb orb].
    destruct (PyStr.endswith "/" (String x r)) eqn:E.
    + destruct (endswith_split _ _ E) as [d ->].
      replace ((d ++ String "/" EmptyString) ++ b) with (d ++ String "/" b).
      * apply basename_after_slash, H.
      * induction d as [| y d' IH]; cbn; [reflexivity | now rewrite IH].
    + apply (basename_after_slash (String x r)), H.
Qed.

Lemma truthy_path_join (a b : string) :
  PyStr.truthy b = true -> PyStr.truthy (os.path_join a b) = true.
Proof.
  intros H. unfold os.path_join.
  destruct (PyStr.startswith "/" b); [exact H |].
  destruct (negb (PyStr.truthy a) || PyStr.endswith "/" a);
    rewrite !truthy_app, ?H, ?orb_true_r; reflexivity.
Qed.

(** ** What a returning call guarantees *)

Section Returns.
Context {P : Platform}.

Lemma run_and_check_returned cmd out (w : World) p :
  result (run_and_check cmd out w) = Return p ->
  all_returned (run_and_check cmd out w) = true.
Proof.
  unfold run_and_check. py; try discriminate.
  destruct (file_exists out w0); reflexivity.
Qed.

Lemma ANTS_returns source target iterations output_stem (w : World) v :
  let r := ANTS source target iterations output_stem w in
  let stem := ANTS_stem source target output_stem w in
  result r = Return v ->
  v = (stem ++ "Affine.txt", stem ++ "Warp.nii.gz",
       stem ++ "InverseWarp.nii.gz", stem)
  /\ file_exists (stem ++ "Affine.txt") (final r) = true
  /\ file_exists (stem ++ "Warp.nii.gz") (final r) = true
  /\ file_exists (stem ++ "InverseWarp.nii.gz") (final r) = true
  /\ all_returned r = true.
Proof.
  intros r stem. subst r stem. unfold ANTS, ANTS_stem, derived_stem.
  destruct output_stem; simp; py; try discriminate;
    repeat (match goal with
            | |- context [if file_exists ?p ?w then _ else _] =>
                destruct (file_exists p w) eqn:?
            end; simp; py);
    try discriminate; intros [= <-]; repeat split; assumption.
Qed.

Lemma ANTS_made source target iterations output_stem (w : World) :
  made (ANTS source target iterations output_stem w)
  = [os_call (ANTS_command source target iterations
                (ANTS_stem source target output_stem w))].
Proof.
  unfold ANTS, ANTS_stem, derived_stem, ANTS_command, os_call.
  destruct output_stem; simp; py; try reflexivity;
    repeat (match goal with
            | |- context [if file_exists ?p ?w then _ else _] =>
                destruct (file_exists p w) eqn:?
            end; simp; py);
    reflexivity.
Qed.

Lemma Warp_returns source target output interp xfm_stem affine_transform
    nonlinear_transform inverse affine_only (w : World) p :
  let r := WarpImageMultiTransform source target output interp xfm_stem
             affine_transform nonlinear_transform inverse affine_only w in
  result r = Return p ->
  p = default_path output "WarpImageMultiTransform.nii.gz" w
  /\ file_exists p (final r) = true
  /\ all_returned r = true.
Proof.
  intros r. subst r.
  destruct (transforms_given xfm_stem affine_transform nonlinear_transform)
    eqn:G.
  - rewrite Warp_run by exact G. intros H.
    destruct (run_and_check_returns _ _ _ _ H) as [-> F].
    split; [reflexivity | split; [exact F |]].
    exact (run_and_check_returned _ _ _ _ H).
  - rewrite Warp_exit by exact G. discriminate.
Qed.

Lemma Propagate_returns mask_volume label_volume mask_index output_file
    binarize (w : World) p :
  let r := PropagateLabelsThroughMask mask_volume label_volume mask_index
             output_file binarize w in
  result r = Return p ->
  p = default_path output_file "PropagateLabelsThroughMask.nii.gz" w
  /\ all_returned r = true.
Proof.
  intros r. subst r.
  destruct (mask_index_truthy mask_index) eqn:T.
  - rewrite Propagate_with_index by exact T.
    destruct binarize; py; discriminate.
  - rewrite Propagate_without_index by exact T.
    destruct binarize.
    + unfold execute. rewrite bind_external.
      destruct (run_execute _ _ w) as [[[] | e | msg] w1];
        try discriminate.
      cbn [after result final all_returned calls forallb ev_returned andb].
      intros H. destruct (run_and_check_returns _ _ _ _ H) as [-> _].
      split; [reflexivity | exact (run_and_check_returned _ _ _ _ H)].
    + intros H. destruct (run_and_check_returns _ _ _ _ H) as [-> _].
      split; [reflexivity | exact (run_and_check_returned _ _ _ _ H)].
Qed.

(** The propagation at the end of [fill_volume_with_surface_labels]
    decides what the function returns. *)
Lemma fill_returns volume_mask surface_files mask_index output_file binarize
    (w : World) p :
  let r := fill_volume_with_surface_labels volume_mask surface_files
             mask_index output_file binarize w in
  result r = Return p ->
  (exists w',
      p = default_path output_file "PropagateLabelsThroughMask.nii.gz" w')
  /\ file_exists p (final r) = true
  /\ all_returned r = true.
Proof.
  intros r. subst r. rewrite fill_run.
  destruct (surfaces surface_files) as [| f1 [| f2 [| f3 fs]]]; py;
    try discriminate; intros H;
    (split; [eexists; apply (Propagate_returns _ _ _ _ _ _ _ H) |];
     split; [apply Propagate_returns_existing; exact H
            | apply (Propagate_returns _ _ _ _ _ _ _ H)]).
Qed.

End Returns.

(** X1: whatever a function of the module returns was found on disk: the
    path returned by [ImageMath], [WarpImageMultiTransform],
    [PropagateLabelsThroughMask] and [fill_volume_with_surface_labels], and
    the three transform files returned by [ANTS], exist in the world the
    call leaves. *)
Theorem returned_paths_exist {P : Platform} :
  (forall volume1 volume2 operator output_file w p,
      let r := ImageMath volume1 volume2 operator output_file w in
      result r = Return p -> file_exists p (final r) = true)
  /\ (forall source target iterations output_stem w a n i stem,
         let r := ANTS source target iterations output_stem w in
         result r = Return (a, n, i, stem) ->
         file_exists a (final r) = true
         /\ file_exists n (final r) = true
         /\ file_exists i (final r) = true)
  /\ (forall source target output interp xfm_stem affine_transform
             nonlinear_transform inverse affine_only w p,
         let r := WarpImageMultiTransform source target output interp
                    xfm_stem affine_transform nonlinear_transform inverse
                    affine_only w in
         result r = Return p -> file_exists p (final r) = true)
  /\ (forall mask_volume label_volume mask_index output_file binarize w p,
         let r := PropagateLabelsThroughMask mask_volume label_volume
                    mask_index output_file binarize w in
         result r = Return p -> file_exists p (final r) = true)
  /\ (forall volume_mask surface_files mask_index output_file binarize w p,
         let r := fill_volume_with_surface_labels volume_mask surface_files
                    mask_index output_file binarize w in
         result r = Return p -> file_exists p (final r) = true).
Proof.
  split; [| split; [| split; [| split]]].
  - intros volume1 volume2 operator output_file w p r. subst r.
    rewrite ImageMath_run. intros H.
    destruct (run_and_check_returns _ _ _ _ H) as [-> F]. exact F.
  - intros source target iterations output_stem w a n i stem r H.
    destruct (ANTS_returns _ _ _ _ _ _ H) as (E & Fa & Fn & Fi & _).
    injection E as -> -> -> _. repeat split; assumption.
  - intros source target output interp xfm_stem affine_transform
           nonlinear_transform inverse affine_only w p r H.
    apply (Warp_returns _ _ _ _ _ _ _ _ _ _ _ H).
  - intros mask_volume label_volume mask_index output_file binarize w p.
    apply Propagate_returns_existing.
  - intros volume_mask surface_files mask_index output_file binarize w p r H.
    apply (fill_returns _ _ _ _ _ _ _ H).
Qed.

Lemma returned_paths_exist_witness :
  let r := ANTS (P := Demo.platform) "/in/t1.nii.gz" "/in/atlas.nii.gz" "0"
                "/out/x" Demo.fresh in
  result r = Return ("/out/xAffine.txt", "/out/xWarp.nii.gz",
                     "/out/xInverseWarp.nii.gz", "/out/x")
  /\ (file_exists "/out/xAffine.txt" (final r) = true
      /\ file_exists "/out/xWarp.nii.gz" (final r) = true
      /\ file_exists "/out/xInverseWarp.nii.gz" (final r) = true).
Proof.
  intros r. refine (conj eq_refl _).
  exact (proj1 (proj2 (returned_paths_exist (P := Demo.platform)))
           "/in/t1.nii.gz" "/in/atlas.nii.gz" "0" "/out/x" Demo.fresh
           _ _ _ _ eq_refl).
Defined.

(** X2: no function of the module returns once a helper it called has
    failed: a call that returns is one in which [execute],
    [transform_to_volume] and [overwrite_volume_labels] all returned. *)
Theorem returns_only_when_helpers_returned {P : Platform} :
  (forall volume1 volume2 operator output_file w,
      let r := ImageMath volume1 volume2 operator output_file w in
      is_return (result r) = true -> all_returned r = true)
  /\ (forall source target iterations output_stem w,
         let r := ANTS source target iterations output_stem w in
         is_return (result r) = true -> all_returned r = true)
  /\ (forall source target output interp xfm_stem affine_transform
             nonlinear_transform inverse affine_only w,
         let r := WarpImageMultiTransform source target output interp
                    xfm_stem affine_transform nonlinear_transform inverse
                    affine_only w in
         is_return (result r) = true -> all_returned r = true)
  /\ (forall mask_volume label_volume mask_index output_file binarize w,
         let r := PropagateLabelsThroughMask mask_volume label_volume
                    mask_index output_file binarize w in
         is_return (result r) = true -> all_returned r = true)
  /\ (forall volume_mask surface_files mask_index output_file binarize w,
         let r := fill_volume_with_surface_labels volume_mask surface_files
                    mask_index output_file binarize w in
         is_return (result r) = true -> all_returned r = true).
Proof.
  assert (R : forall A (o : outcome A),
             is_return o = true -> exists v, o = Return v).
  { intros A [v | e | msg]; [eauto | discriminate | discriminate]. }
  split; [| split; [| split; [| split]]].
  - intros volume1 volume2 operator output_file w r H. subst r.
    destruct (R _ _ H) as [p Hp]. rewrite ImageMath_run in *.
    exact (run_and_check_returned _ _ _ _ Hp).
  - intros source target iterations output_stem w r H.
    destruct (R _ _ H) as [p Hp]. apply (ANTS_returns _ _ _ _ _ _ Hp).
  - intros source target output interp xfm_stem affine_transform
           nonlinear_transform inverse affine_only w r H.
    destruct (R _ _ H) as [p Hp].
    apply (Warp_returns _ _ _ _ _ _ _ _ _ _ _ Hp).
  - intros mask_volume label_volume mask_index output_file binarize w r H.
    destruct (R _ _ H) as [p Hp]. apply (Propagate_returns _ _ _ _ _ _ _ Hp).
  - intros volume_mask surface_files mask_index output_file binarize w r H.
    destruct (R _ _ H) as [p Hp]. apply (fill_returns _ _ _ _ _ _ _ Hp).
Qed.

Lemma returns_only_when_helpers_returned_witness :
  let r := fill_volume_with_surface_labels (P := Demo.platform)
             "brain.nii.gz" (file_list ["lh.vtk"; "rh.vtk"]) None
             EmptyString true Demo.fresh in
  is_return (result r) = true /\ all_returned r = true.
Proof.
  intros r. refine (conj eq_refl _).
  exact (proj2 (proj2 (proj2 (proj2
           (returns_only_when_helpers_returned (P := Demo.platform)))))
           "brain.nii.gz" (file_list ["lh.vtk"; "rh.vtk"]) None EmptyString
           true Demo.fresh eq_refl).
Defined.

(** ** Failures of [execute] *)

Lemma run_and_check_failure {P : Platform} cmd out (w w' : World)
    (o : outcome unit) :
  run_execute cmd (Some "os") w = (o, w') ->
  is_return o = false ->
  let r := run_and_check cmd out w in
  failure_of o = Some (result r) /\ final r = w'.
Proof.
  intros E F r. subst r. unfold run_and_check, execute.
  rewrite bind_external, E.
  destruct o; [discriminate | |]; split; reflexivity.
Qed.

(** X3: [ImageMath], [ANTS] and [WarpImageMultiTransform] do not catch a
    failure of [execute]: when [execute] raises or exits on the command of
    the call, the call ends the same way, in the world [execute] left,
    whatever files exist. *)
Theorem execute_failure_is_passed_on {P : Platform}
    (w w' : World) (o : outcome unit) :
  is_return o = false ->
  (forall volume1 volume2 operator output_file,
      let r := ImageMath volume1 volume2 operator output_file w in
      run_execute
        (cmd_list ["ImageMath"; "3";
                   default_path output_file "ImageMath.nii.gz" w;
                   operator; volume1; volume2]) (Some "os") w = (o, w') ->
      failure_of o = Some (result r) /\ final r = w')
  /\ (forall source target iterations output_stem,
         let r := ANTS source target iterations output_stem w in
         run_execute
           (ANTS_command source target iterations
              (ANTS_stem source target output_stem w)) (Some "os") w
         = (o, w') ->
         failure_of o = Some (result r) /\ final r = w')
  /\ (forall source target output interp xfm_stem affine_transform
             nonlinear_transform inverse affine_only cmd,
         let r := WarpImageMultiTransform source target output interp
                    xfm_stem affine_transform nonlinear_transform inverse
                    affine_only w in
         made r = [os_call cmd] ->
         run_execute cmd (Some "os") w = (o, w') ->
         failure_of o = Some (result r) /\ final r = w').
Proof.
  intros F. split; [| split].
  - intros volume1 volume2 operator output_file r E. subst r.
    rewrite ImageMath_run. exact (run_and_check_failure _ _ _ _ _ E F).
  - intros source target iterations output_stem r. subst r.
    unfold ANTS, ANTS_stem, derived_stem, ANTS_command.
    destruct output_stem; simp; autorewrite with py; simp;
      unfold execute; rewrite bind_external; intros ->;
      destruct o; [discriminate | | | discriminate | |];
      split; reflexivity.
  - intros source target output interp xfm_stem affine_transform
           nonlinear_transform inverse affine_only cmd r. subst r.
    destruct (transforms_given xfm_stem affine_transform nonlinear_transform)
      eqn:G.
    + rewrite Warp_run by exact G. rewrite run_and_check_made.
      intros [= <-] E. exact (run_and_check_failure _ _ _ _ _ E F).
    + rewrite Warp_exit by exact G. discriminate.
Qed.

Lemma execute_failure_is_passed_on_witness :
  let broken : Platform :=
    {| World := Demo.world;
       cwd := Demo.workdir;
       file_exists := Demo.exists_in;
       run_execute := fun _ _ w =>
         (Raise (OtherError "ANTS: command not found"), w);
       run_transform_to_volume := Demo.to_volume;
       run_overwrite_volume_labels := Demo.overwrite |} in
  let r := WarpImageMultiTransform (P := broken) "labels.nii.gz" "t1.nii.gz"
             "/out/w.nii.gz" "--use-NN" "/xfm/x" EmptyString EmptyString
             false true Demo.fresh in
  (is_return (Raise (A := unit) (OtherError "ANTS: command not found"))
   = false
   /\ made r = [os_call (affine_only_command "labels.nii.gz" "t1.nii.gz"
                           "/out/w.nii.gz" "--use-NN" "/xfm/xAffine.txt"
                           false)])
  /\ failure_of (Raise (A := unit) (OtherError "ANTS: command not found"))
     = Some (result r)
  /\ final r = Demo.fresh.
Proof.
  intros broken r. refine (conj (conj eq_refl eq_refl) _).
  exact (proj2 (proj2
           (execute_failure_is_passed_on (P := broken) Demo.fresh
              Demo.fresh (Raise (OtherError "ANTS: command not found"))
              eq_refl))
           "labels.nii.gz" "t1.nii.gz" "/out/w.nii.gz" "--use-NN" "/xfm/x"
           EmptyString EmptyString false true _ eq_refl eq_refl).
Defined.

(** ** The transforms of [WarpImageMultiTransform] *)

(** X4: given a stem, with [affine_only=False] and the nonlinear file of
    the stem on disk, [WarpImageMultiTransform] applies both transforms of
    the stem: forward, the command ends with [stem+'Warp.nii.gz'] then
    [stem+'Affine.txt']; inverted, it ends with ['-i'], [stem+'Affine.txt']
    then [stem+'InverseWarp.nii.gz']. *)
Theorem Warp_with_stem_applies_both_transforms {P : Platform}
    (source target output interp xfm_stem : string)
    (affine_transform nonlinear_transform : string) (w : World) :
  xfm_stem <> EmptyString ->
  let out := default_path output "WarpImageMultiTransform.nii.gz" w in
  (file_exists (xfm_stem ++ "Warp.nii.gz") w = true ->
   made (WarpImageMultiTransform source target output interp xfm_stem
           affine_transform nonlinear_transform false false w)
   = [os_call (cmd_list ["WarpImageMultiTransform"; "3"; source; out; "-R";
                         target; interp; xfm_stem ++ "Warp.nii.gz";
                         xfm_stem ++ "Affine.txt"])])
  /\ (file_exists (xfm_stem ++ "InverseWarp.nii.gz") w = true ->
      made (WarpImageMultiTransform source target output interp xfm_stem
              affine_transform nonlinear_transform true false w)
      = [os_call (cmd_list ["WarpImageMultiTransform"; "3"; source; out;
                            "-R"; target; interp; "-i";
                            xfm_stem ++ "Affine.txt";
                            xfm_stem ++ "InverseWarp.nii.gz"])]).
Proof.
  intros Hstem out. subst out.
  assert (G : transforms_given xfm_stem affine_transform nonlinear_transform
              = true).
  { destruct xfm_stem; [congruence | reflexivity]. }
  split; intros F; rewrite Warp_run by exact G; rewrite run_and_check_made;
    unfold resolved_nonlinear, resolved_affine;
    (destruct xfm_stem; [congruence |]); cbn [PyStr.truthy];
    rewrite F; reflexivity.
Qed.

Lemma Warp_with_stem_applies_both_transforms_witness :
  let w := Demo.touch ["/xfm/xInverseWarp.nii.gz"] Demo.fresh in
  ("/xfm/x" <> EmptyString
   /\ Demo.exists_in "/xfm/xInverseWarp.nii.gz" w = true)
  /\ made (WarpImageMultiTransform (P := Demo.platform) "labels.nii.gz"
             "t1.nii.gz" "/out/w.nii.gz" "--use-NN" "/xfm/x" EmptyString
             EmptyString true false w)
     = [os_call (cmd_list ["WarpImageMultiTransform"; "3"; "labels.nii.gz";
                           "/out/w.nii.gz"; "-R"; "t1.nii.gz"; "--use-NN";
                           "-i"; "/xfm/xAffine.txt";
                           "/xfm/xInverseWarp.nii.gz"])].
Proof.
  intros w.
  assert (Hne : "/xfm/x" <> EmptyString) by discriminate.
  refine (conj (conj Hne eq_refl) _).
  exact (proj2 (Warp_with_stem_applies_both_transforms (P := Demo.platform)
                  "labels.nii.gz" "t1.nii.gz" "/out/w.nii.gz" "--use-NN"
                  "/xfm/x" EmptyString EmptyString w Hne) eq_refl).
Defined.

(** X5: a non-empty [xfm_stem] overrides the caller's [affine_transform]
    and [nonlinear_transform]: the call runs exactly as if they had been
    left empty. *)
Theorem Warp_stem_overrides_transforms {P : Platform}
    (source target output interp xfm_stem : string)
    (affine_transform nonlinear_transform : string)
    (inverse affine_only : bool) (w : World) :
  xfm_stem <> EmptyString ->
  WarpImageMultiTransform source target output interp xfm_stem
    affine_transform nonlinear_transform inverse affine_only w
  = WarpImageMultiTransform source target output interp xfm_stem
      EmptyString EmptyString inverse affine_only w.
Proof.
  intros Hstem.
  rewrite !Warp_run
    by (unfold transforms_given; destruct xfm_stem;
        [congruence | reflexivity]).
  unfold resolved_affine, resolved_nonlinear.
  destruct xfm_stem; [congruence | reflexivity].
Qed.

Lemma Warp_stem_overrides_transforms_witness :
  "/xfm/x" <> EmptyString
  /\ WarpImageMultiTransform (P := Demo.platform) "labels.nii.gz"
       "t1.nii.gz" EmptyString "--use-NN" "/xfm/x" "/other/Affine.txt"
       "/other/Warp.nii.gz" false false Demo.fresh
     = WarpImageMultiTransform (P := Demo.platform) "labels.nii.gz"
         "t1.nii.gz" EmptyString "--use-NN" "/xfm/x" EmptyString EmptyString
         false false Demo.fresh.
Proof.
  assert (Hne : "/xfm/x" <> EmptyString) by discriminate.
  refine (conj Hne _).
  exact (Warp_stem_overrides_transforms (P := Demo.platform) "labels.nii.gz"
           "t1.nii.gz" EmptyString "--use-NN" "/xfm/x" "/other/Affine.txt"
           "/other/Warp.nii.gz" false false Demo.fresh Hne).
Defined.

(** X6: the warp after a registration finds its transforms: when [ANTS]
    has returned its four values, [WarpImageMultiTransform] called next
    with the returned stem and [affine_only=False] applies both returned
    transforms, the nonlinear one forward and the inverse one with
    [inverse=True]. *)
Theorem ANTS_results_feed_Warp {P : Platform}
    (source target iterations output_stem : string) (w : World)
    (affine nonlinear inverse_warp stem : string)
    (moving reference output interp : string) (inverse : bool) :
  let registration := ANTS source target iterations output_stem w in
  result registration = Return (affine, nonlinear, inverse_warp, stem) ->
  let w1 := final registration in
  made (WarpImageMultiTransform moving reference output interp stem
          EmptyString EmptyString inverse false w1)
  = [os_call
       (both_transforms_command moving reference
          (default_path output "WarpImageMultiTransform.nii.gz" w1) interp
          affine (if inverse then inverse_warp else nonlinear) inverse)].
Proof.
  intros registration H w1.
  destruct (ANTS_returns _ _ _ _ _ _ H) as (E & Fa & Fn & Fi & _).
  fold registration w1 in Fa, Fn, Fi.
  injection E as -> -> -> ->.
  assert (T : PyStr.truthy (ANTS_stem source target output_stem w) = true).
  { unfold ANTS_stem.
    destruct (PyStr.truthy output_stem) eqn:O; [exact O |].
    unfold derived_stem. apply truthy_path_join.
    rewrite !truthy_app. cbn. apply orb_true_r. }
  rewrite Warp_run by (unfold transforms_given; rewrite T; reflexivity).
  rewrite run_and_check_made.
  unfold resolved_nonlinear, resolved_affine. rewrite T.
  destruct inverse; rewrite ?Fi, ?Fn; reflexivity.
Qed.

Lemma ANTS_results_feed_Warp_witness :
  let registration := ANTS (P := Demo.platform) "/in/t1.nii.gz"
                        "/in/atlas.nii.gz" "30x99x11" EmptyString
                        Demo.fresh in
  result registration
  = Return ("/data/t1_to_atlasAffine.txt", "/data/t1_to_atlasWarp.nii.gz",
            "/data/t1_to_atlasInverseWarp.nii.gz", "/data/t1_to_atlas")
  /\ made (WarpImageMultiTransform (P := Demo.platform) "labels.nii.gz"
             "/in/atlas.nii.gz" EmptyString "--use-NN" "/data/t1_to_atlas"
             EmptyString EmptyString false false (final registration))
     = [os_call (cmd_list ["WarpImageMultiTransform"; "3"; "labels.nii.gz";
                           "/data/WarpImageMultiTransform.nii.gz"; "-R";
                           "/in/atlas.nii.gz"; "--use-NN";
                           "/data/t1_to_atlasWarp.nii.gz";
                           "/data/t1_to_atlasAffine.txt"])].
Proof.
  intros registration. refine (conj eq_refl _).
  exact (ANTS_results_feed_Warp (P := Demo.platform) "/in/t1.nii.gz"
           "/in/atlas.nii.gz" "30x99x11" EmptyString Demo.fresh _ _ _ _
           "labels.nii.gz" "/in/atlas.nii.gz" EmptyString "--use-NN" false
           eq_refl).
Defined.

(** ** The surfaces of [fill_volume_with_surface_labels] *)

(** X7: given an empty list of surfaces,
    [fill_volume_with_surface_labels] raises [IndexError] at
    [surface_files[0]], before any helper is called and without touching
    the world. *)
Theorem fill_volume_without_surface {P : Platform}
    (volume_mask : string) (mask_index : option Z) (output_file : string)
    (binarize : bool) (w : World) :
  fill_volume_with_surface_labels volume_mask (file_list []) mask_index
    output_file binarize w
  = mkRun (Raise (IndexError "list index out of range")) w [].
Proof. rewrite fill_run. py. reflexivity. Qed.

(** X8: surfaces are merged only when there are exactly two: given three
    or more, [fill_volume_with_surface_labels] uses the first one alone
    and never transforms the others. *)
Theorem fill_volume_with_more_than_two_surfaces {P : Platform}
    (volume_mask : string) (mask_index : option Z) (output_file : string)
    (binarize : bool) (w : World) (f1 f2 f3 : string) (fs : list string) :
  fill_volume_with_surface_labels volume_mask
    (file_list (f1 :: f2 :: f3 :: fs)) mask_index output_file binarize w
  = fill_volume_with_surface_labels volume_mask (one_file f1) mask_index
      output_file binarize w.
Proof. rewrite !fill_run. py; reflexivity. Qed.

(** ** Names of the outputs *)

(** X9: the stem [ANTS] derives keeps only the names of its two volumes:
    for a source [dir/name.ext] and a target [dir'/name'.ext'] (names
    without slash or dot, extensions without slash), the stem in the
    command is [name_to_name'] directly in the working directory,
    whatever the directories and the extensions. *)
Theorem ANTS_stem_from_file_names {P : Platform}
    (dir1 name1 ext1 dir2 name2 ext2 iterations : string) (w : World) :
  has_char "/" name1 = false -> has_char "." name1 = false ->
  has_char "/" ext1 = false ->
  has_char "/" name2 = false -> has_char "." name2 = false ->
  has_char "/" ext2 = false ->
  let source := dir1 ++ "/" ++ name1 ++ "." ++ ext1 in
  let target := dir2 ++ "/" ++ name2 ++ "." ++ ext2 in
  let stem := os.path_join (cwd w) (name1 ++ "_to_" ++ name2) in
  made (ANTS source target iterations EmptyString w)
  = [os_call (ANTS_command source target iterations stem)]
  /\ os.path_basename stem = name1 ++ "_to_" ++ name2.
Proof.
  intros S1 D1 E1 S2 D2 E2 source target stem. subst source target stem.
  assert (B : forall dir name ext,
             has_char "/" name = false -> has_char "." name = false ->
             has_char "/" ext = false ->
             up_to_first "." (os.path_basename (dir ++ "/" ++ name ++ "."
                                                ++ ext)) = name).
  { intros dir name ext Hs Hd He.
    change (dir ++ "/" ++ name ++ "." ++ ext)
      with (dir ++ String "/" (name ++ String "." ext)).
    rewrite basename_after_slash.
    - apply up_to_first_app, Hd.
    - rewrite has_char_app. cbn. rewrite Hs, He. reflexivity. }
  split.
  - rewrite ANTS_made. unfold ANTS_stem, derived_stem. cbn [PyStr.truthy].
    rewrite !B by assumption. reflexivity.
  - apply basename_path_join. rewrite !has_char_app. cbn.
    rewrite S1, S2. reflexivity.
Qed.

Lemma ANTS_stem_from_file_names_witness :
  (has_char "/" "t1weighted_brain" = false
   /\ has_char "." "t1weighted_brain" = false
   /\ has_char "/" "nii.gz" = false
   /\ has_char "/" "MNI152_T1_1mm_brain" = false
   /\ has_char "." "MNI152_T1_1mm_brain" = false)
  /\ made (ANTS (P := Demo.platform) "/data/arno/mri/t1weighted_brain.nii.gz"
             "/data/atlases/MNI152_T1_1mm_brain.nii.gz" "0" EmptyString
             Demo.fresh)
     = [os_call (ANTS_command "/data/arno/mri/t1weighted_brain.nii.gz"
                   "/data/atlases/MNI152_T1_1mm_brain.nii.gz" "0"
                   "/data/t1weighted_brain_to_MNI152_T1_1mm_brain")].
Proof.
  refine (conj (conj eq_refl (conj eq_refl (conj eq_refl
            (conj eq_refl eq_refl)))) _).
  exact (proj1 (ANTS_stem_from_file_names (P := Demo.platform)
                  "/data/arno/mri" "t1weighted_brain" "nii.gz"
                  "/data/atlases" "MNI152_T1_1mm_brain" "nii.gz" "0"
                  Demo.fresh eq_refl eq_refl eq_refl eq_refl eq_refl
                  eq_refl)).
Defined.

(** X10: a default output is named after its function, in whatever
    directory the process works: with an empty output argument, the path
    returned by [ImageMath] has basename ['ImageMath.nii.gz'], the one of
    [WarpImageMultiTransform] ['WarpImageMultiTransform.nii.gz'], and the
    one of [PropagateLabelsThroughMask] and of
    [fill_volume_with_surface_labels]
    ['PropagateLabelsThroughMask.nii.gz']. *)
Theorem default_outputs_are_named_after_the_function {P : Platform} :
  (forall volume1 volume2 operator w p,
      result (ImageMath volume1 volume2 operator EmptyString w) = Return p ->
      os.path_basename p = "ImageMath.nii.gz")
  /\ (forall source target interp xfm_stem affine_transform
             nonlinear_transform inverse affine_only w p,
         result (WarpImageMultiTransform source target EmptyString interp
                   xfm_stem affine_transform nonlinear_transform inverse
                   affine_only w) = Return p ->
         os.path_basename p = "WarpImageMultiTransform.nii.gz")
  /\ (forall mask_volume label_volume mask_index binarize w p,
         result (PropagateLabelsThroughMask mask_volume label_volume
                   mask_index EmptyString binarize w) = Return p ->
         os.path_basename p = "PropagateLabelsThroughMask.nii.gz")
  /\ (forall volume_mask surface_files mask_index binarize w p,
         result (fill_volume_with_surface_labels volume_mask surface_files
                   mask_index EmptyString binarize w) = Return p ->
         os.path_basename p = "PropagateLabelsThroughMask.nii.gz").
Proof.
  split; [| split; [| split]].
  - intros volume1 volume2 operator w p. rewrite ImageMath_run. intros H.
    destruct (run_and_check_returns _ _ _ _ H) as [-> _].
    apply basename_path_join. reflexivity.
  - intros source target interp xfm_stem affine_transform
           nonlinear_transform inverse affine_only w p H.
    destruct (Warp_returns _ _ _ _ _ _ _ _ _ _ _ H) as [-> _].
    apply basename_path_join. reflexivity.
  - intros mask_volume label_volume mask_index binarize w p H.
    destruct (Propagate_returns _ _ _ _ _ _ _ H) as [-> _].
    apply basename_path_join. reflexivity.
  - intros volume_mask surface_files mask_index binarize w p H.
    destruct (fill_returns _ _ _ _ _ _ _ H) as [[w' ->] _].
    apply basename_path_join. reflexivity.
Qed.

Lemma default_outputs_are_named_after_the_function_witness :
  let r := WarpImageMultiTransform (P := Demo.platform) "labels.nii.gz"
             "t1.nii.gz" EmptyString "--use-NN" "/xfm/x" EmptyString
             EmptyString false true Demo.fresh in
  result r = Return "/data/WarpImageMultiTransform.nii.gz"
  /\ os.path_basename "/data/WarpImageMultiTransform.nii.gz"
     = "WarpImageMultiTransform.nii.gz".
Proof.
  intros r. refine (conj eq_refl _).
  exact (proj1 (proj2
           (default_outputs_are_named_after_the_function
              (P := Demo.platform)))
           "labels.nii.gz" "t1.nii.gz" "--use-NN" "/xfm/x" EmptyString
           EmptyString false true Demo.fresh _ eq_refl).
Defined.

(** ** The mask index, for every value *)

(** X11: whatever [mask_index] is, [PropagateLabelsThroughMask] never runs
    a command that thresholds the mask at that index: every command it
    hands to [execute] is the binarization (only with [binarize=True]) or
    the propagation through the (possibly binarized) mask volume. *)
Theorem mask_index_never_reaches_a_command {P : Platform}
    (mask_volume label_volume : string) (mask_index : option Z)
    (output_file : string) (binarize : bool) (w : World) (c : Call) :
  let r := PropagateLabelsThroughMask mask_volume label_volume mask_index
             output_file binarize w in
  let out :=
    default_path output_file "PropagateLabelsThroughMask.nii.gz" w in
  let temp_file := os.path_join (cwd w) "PropagateLabelsThroughMask.nii.gz" in
  In c (made r) ->
  (binarize = true /\ c = os_call (binarize_command mask_volume temp_file))
  \/ c = os_call (propagate_command out
                    (if binarize then temp_file else mask_volume)
                    label_volume).
Proof.
  intros r out temp_file. subst r.
  destruct (mask_index_truthy mask_index) eqn:T.
  - rewrite Propagate_with_index by exact T. fold temp_file.
    destruct binarize; py; cbn; intuition auto.
  - rewrite Propagate_without_index by exact T. fold out temp_file.
    destruct binarize.
    + py; split_exists; cbn; intuition auto.
    + rewrite run_and_check_made. intros [<- | []]. right; reflexivity.
Qed.

Lemma mask_index_never_reaches_a_command_witness :
  let r := PropagateLabelsThroughMask (P := Demo.platform) "brain.nii.gz"
             "labels.nii.gz" (Some 3) "/out/filled.nii.gz" true
             Demo.fresh in
  let c := os_call (binarize_command "brain.nii.gz"
                      "/data/PropagateLabelsThroughMask.nii.gz") in
  In c (made r)
  /\ ((true = true /\ c = c)
      \/ c = os_call (propagate_command "/out/filled.nii.gz"
                        "/data/PropagateLabelsThroughMask.nii.gz"
                        "labels.nii.gz")).
Proof.
  intros r c.
  assert (H : In c (made r)) by (left; reflexivity).
  refine (conj H _).
  exact (mask_index_never_reaches_a_command (P := Demo.platform)
           "brain.nii.gz" "labels.nii.gz" (Some 3) "/out/filled.nii.gz" true
           Demo.fresh c H).
Defined.

(** X12: the guard of [WarpImageMultiTransform] lets a call through that
    names a nonlinear transform and no affine one; the command then
    carries the empty string in the place of the affine transform. *)
Theorem Warp_with_nonlinear_transform_only {P : Platform}
    (source target output interp nonlinear_transform : string)
    (inverse affine_only : bool) (w : World) :
  nonlinear_transform <> EmptyString ->
  let out := default_path output "WarpImageMultiTransform.nii.gz" w in
  made (WarpImageMultiTransform source target output interp EmptyString
          EmptyString nonlinear_transform inverse affine_only w)
  = [os_call
       (if affine_only || negb (file_exists nonlinear_transform w)
        then affine_only_command source target out interp EmptyString
               inverse
        else both_transforms_command source target out interp EmptyString
               nonlinear_transform inverse)].
Proof.
  intros Hn out. subst out.
  rewrite Warp_run
    by (destruct nonlinear_transform; [congruence | reflexivity]).
  rewrite run_and_check_made. reflexivity.
Qed.

Lemma Warp_with_nonlinear_transform_only_witness :
  "/xfm/xWarp.nii.gz" <> EmptyString
  /\ made (WarpImageMultiTransform (P := Demo.platform) "labels.nii.gz"
             "t1.nii.gz" "/out/w.nii.gz" "--use-NN" EmptyString EmptyString
             "/xfm/xWarp.nii.gz" false false
             (Demo.touch ["/xfm/xWarp.nii.gz"] Demo.fresh))
     = [os_call (cmd_list ["WarpImageMultiTransform"; "3"; "labels.nii.gz";
                           "/out/w.nii.gz"; "-R"; "t1.nii.gz"; "--use-NN";
                           "/xfm/xWarp.nii.gz"; EmptyString])].
Proof.
  assert (Hne : "/xfm/xWarp.nii.gz" <> EmptyString) by discriminate.
  refine (conj Hne _).
  exact (Warp_with_nonlinear_transform_only (P := Demo.platform)
           "labels.nii.gz" "t1.nii.gz" "/out/w.nii.gz" "--use-NN"
           "/xfm/xWarp.nii.gz" false false
           (Demo.touch ["/xfm/xWarp.nii.gz"] Demo.fresh) Hne).
Defined.

(** ** After a failed helper *)

Lemma run_and_check_only_last_may_fail {P : Platform} cmd out (w : World) :
  only_last_may_fail (run_and_check cmd out w) = true.
Proof.
  unfold only_last_may_fail, run_and_check. py; try reflexivity.
  destruct (file_exists out w0); reflexivity.
Qed.

Lemma Propagate_only_last_may_fail {P : Platform}
    mask_volume label_volume mask_index output_file binarize (w : World)
    (before : list Event) :
  forallb ev_returned before = true ->
  forallb ev_returned
    (removelast
       (before ++ calls (PropagateLabelsThroughMask mask_volume label_volume
                           mask_index output_file binarize w))) = true.
Proof.
  intros B.
  assert (L : forall l : list Event,
             forallb ev_returned (removelast l) = true ->
             forallb ev_returned (removelast (before ++ l)) = true).
  { intros l H. destruct l as [| e l].
    - rewrite app_nil_r. clear H.
      induction before as [| b bs IH]; [reflexivity |].
      cbn in B. apply andb_prop in B as [Hb Hbs].
      destruct bs as [| b' bs']; [reflexivity |].
      cbn [removelast forallb]. rewrite Hb. exact (IH Hbs).
    - rewrite removelast_app by discriminate.
      rewrite forallb_app, B. exact H. }
  apply L.
  destruct (mask_index_truthy mask_index) eqn:T.
  - rewrite Propagate_with_index by exact T.
    destruct binarize; py; reflexivity.
  - rewrite Propagate_without_index by exact T.
    destruct binarize.
    + py; split_exists; reflexivity.
    + apply run_and_check_only_last_may_fail.
Qed.

(** X13: a failed helper is the last thing a call does: in every run of
    the five functions, every helper call before the last one returned, so
    that nothing is run after a command or a conversion has failed. *)
Theorem nothing_runs_after_a_failed_helper {P : Platform} :
  (forall volume1 volume2 operator output_file w,
      only_last_may_fail (ImageMath volume1 volume2 operator output_file w)
      = true)
  /\ (forall source target iterations output_stem w,
         only_last_may_fail (ANTS source target iterations output_stem w)
         = true)
  /\ (forall source target output interp xfm_stem affine_transform
             nonlinear_transform inverse affine_only w,
         only_last_may_fail
           (WarpImageMultiTransform source target output interp xfm_stem
              affine_transform nonlinear_transform inverse affine_only w)
         = true)
  /\ (forall mask_volume label_volume mask_index output_file binarize w,
         only_last_may_fail
           (PropagateLabelsThroughMask mask_volume label_volume mask_index
              output_file binarize w) = true)
  /\ (forall volume_mask surface_files mask_index output_file binarize w,
         only_last_may_fail
           (fill_volume_with_surface_labels volume_mask surface_files
              mask_index output_file binarize w) = true).
Proof.
  split; [| split; [| split; [| split]]].
  - intros. rewrite ImageMath_run. apply run_and_check_only_last_may_fail.
  - intros source target iterations output_stem w.
    unfold only_last_may_fail.
    assert (M := ANTS_made source target iterations output_stem w).
    unfold made in M.
    destruct (calls (ANTS source target iterations output_stem w))
      as [| e [| e' l]]; try discriminate M. reflexivity.
  - intros source target output interp xfm_stem affine_transform
           nonlinear_transform inverse affine_only w.
    destruct (transforms_given xfm_stem affine_transform nonlinear_transform)
      eqn:G.
    + rewrite Warp_run by exact G. apply run_and_check_only_last_may_fail.
    + rewrite Warp_exit by exact G. reflexivity.
  - intros mask_volume label_volume mask_index output_file binarize w.
    apply (Propagate_only_last_may_fail _ _ _ _ _ _ []). reflexivity.
  - intros volume_mask surface_files mask_index output_file binarize w.
    unfold only_last_may_fail. rewrite fill_run.
    destruct (surfaces surface_files) as [| f1 [| f2 [| f3 fs]]]; py;
      try reflexivity;
      first [ apply (Propagate_only_last_may_fail _ _ _ _ _ _ [_])
            | apply (Propagate_only_last_may_fail _ _ _ _ _ _ [_; _; _]) ];
      reflexivity.
Qed.
